(** * user-app: the authorization gate, the session flows and the profile update

    A shallow embedding of the Express application:

    - [authenticateJWT]            middleware/jwtMiddleware.js
    - [register], [login], [validate], [logout]   routes/auth.js
    - [view], [update], [delete]   routes/profile.js
    - the two tables and their constraints          database.sql

    The handlers are written against three collaborators that are not part
    of the repository: the PostgreSQL pool ([pool_query]), bcryptjs and
    jsonwebtoken.  The store is modelled from database.sql; the two
    libraries are taken through the interface [Libraries].

    A handler is a computation over a [world]: the tables, the environment
    of the process, the clock, the queries the pool is about to reject, and
    the log of the calls made to the collaborators.  The console output is
    left out. *)

From Stdlib Require Import String Ascii ZArith List Bool Lia DecimalString
  Eqdep_dec.
Import ListNotations.
Local Open Scope string_scope.
Local Open Scope Z_scope.

(** ** JavaScript values *)

(** The values that reach the handlers: a property of a parsed JSON body,
    a parsed cookie.  A missing property reads as [JUndefined].  Numbers are
    the integral ones: [JNum n] is the Number that the numeral [n] reads as.
    [JObj inner] stands for an array or an object; the [pg] driver sends
    both to the server as a text of the form [{inner}]. *)
Inductive jsval : Type :=
| JUndefined
| JNull
| JBool (b : bool)
| JNum (n : Z)
| JStr (s : string)
| JObj (inner : string).

(** [if (v)] in JavaScript. *)
Definition truthy (v : jsval) : bool :=
  match v with
  | JUndefined | JNull => false
  | JBool b => b
  | JNum n => negb (n =? 0)
  | JStr s => negb (s =? EmptyString)%string
  | JObj _ => true
  end.

(** A plain object, read by property name. *)
Definition object := list (string * jsval).

Fixpoint lookup (o : object) (k : string) : option jsval :=
  match o with
  | [] => None
  | (k', v) :: o' => if (k' =? k)%string then Some v else lookup o' k
  end.

(** [o.k] *)
Definition prop (o : object) (k : string) : jsval :=
  match lookup o k with
  | Some v => v
  | None => JUndefined
  end.

(** *** The text of a Number *)

(** The Number a non-negative integer numeral reads as.  Every integer
    below 2^53 is a Number; further on a Number has 53 significant bits and
    the numeral goes to the nearest one, to the one whose last bit is 0 when
    it lies half-way. *)
Definition Number_of (a : Z) : Z :=
  let e := Z.log2 a - 52 in
  if e <=? 0 then a
  else
    let q := Z.shiftr a e in
    let r := a - Z.shiftl q e in
    let half := Z.shiftl 1 (e - 1) in
    let m := if r <? half then q
             else if half <? r then q + 1
             else if Z.even q then q else q + 1 in
    Z.shiftl m e.

(** Whether the integer [v] reads as the Number [x], for [x] from 2^53 on:
    [v] is nearer to [x] than to the Number below and the Number above, or
    half-way when the last bit of [x] is 0. *)
Definition reads_as (x v : Z) : bool :=
  let e := Z.log2 x - 52 in
  let m := Z.shiftr x e in
  let above := 2 ^ e in
  let below := if m =? 2 ^ 52 then 2 ^ (e - 1) else 2 ^ e in
  if Z.even m then (2 * x - below <=? 2 * v) && (2 * v <=? 2 * x + above)
  else (2 * x - below <? 2 * v) && (2 * v <? 2 * x + above).

(** The integer with the fewest significant digits that reads as [x],
    looked for among the multiples of 10^p, then of 10^(p-1), and so on;
    of two with as many digits, the nearer to [x]. *)
Fixpoint shortest (x : Z) (p : nat) {struct p} : Z :=
  let w := 10 ^ Z.of_nat p in
  let v1 := (x / w) * w in
  let v2 := v1 + w in
  let found :=
    match reads_as x v1, reads_as x v2 with
    | true, true =>
        Some (if x - v1 <? v2 - x then v1
              else if v2 - x <? x - v1 then v2
              else if Z.even (x / w) then v1 else v2)
    | true, false => Some v1
    | false, true => Some v2
    | false, false => None
    end in
  match found, p with
  | Some v, _ => v
  | None, S p' => shortest x p'
  | None, O => x
  end.

Definition digits (a : Z) : string := NilZero.string_of_int (Z.to_int a).

Fixpoint strip_zeros (s : string) : string :=
  match s with
  | EmptyString => EmptyString
  | String c r =>
      match strip_zeros r with
      | EmptyString =>
          if Ascii.eqb c "0" then EmptyString else String c EmptyString
      | r' => String c r'
      end
  end.

(** [String(n)] for an integral Number: the digits of the integer while it
    is below 2^53; from there on the fewest digits that read as the Number,
    followed by zeros up to 21 digits and in the form [d.ddde+x] beyond. *)
Definition Number_toString (n : Z) : string :=
  let a := Z.abs n in
  let sign := if n <? 0 then "-" else EmptyString in
  if a <? 2 ^ 53 then digits n
  else
    let x := Number_of a in
    if 2 ^ 1024 <=? x then sign ++ "Infinity"
    else
      let D := digits (shortest x (String.length (digits x) - 1)) in
      if (String.length D <=? 21)%nat then sign ++ D
      else
        let e := digits (Z.of_nat (String.length D) - 1) in
        match strip_zeros D with
        | String c EmptyString => sign ++ String c ("e+" ++ e)
        | String c r => sign ++ String c ("." ++ r ++ "e+" ++ e)
        | EmptyString => sign ++ D
        end.

(** ** Outcomes of a call: a value or a thrown exception *)

Inductive outcome (A : Type) : Type :=
| Return (a : A)
| Throw (msg : string).
Arguments Return {A} a.
Arguments Throw {A} msg.

(** ** The store (database.sql) *)

(** *** VARCHAR(255) *)

(** A text of the store holds no character U+0000. *)
Fixpoint has_nul (s : string) : bool :=
  match s with
  | EmptyString => false
  | String c r => Ascii.eqb c zero || has_nul r
  end.

(** At most 255 characters, a character of the model counting for one. *)
Definition fits_varchar255 (s : string) : bool :=
  (String.length s <=? 255)%nat.

(** A text as a column of type VARCHAR(255) holds it. *)
Definition is_varchar255 (s : string) : bool :=
  negb (has_nul s) && fits_varchar255 s.

(** What a column of type VARCHAR(255) can hold: the rows of the tables
    are made of such values, so that no row bears a text the store could
    not have written. *)
Record varchar255 : Type := mk_varchar {
  chars : string;
  chars_ok : is_varchar255 chars = true
}.

(** A text as a value of the column, when it is one. *)
Definition as_varchar255 (s : string) : option varchar255 :=
  match is_varchar255 s as b return is_varchar255 s = b -> option varchar255 with
  | true => fun H => Some (mk_varchar s H)
  | false => fun _ => None
  end eq_refl.

(** The first [n] characters of a text, and what comes after them. *)
Fixpoint first_chars (n : nat) (s : string) {struct s} : string :=
  match s, n with
  | String c r, S n' => String c (first_chars n' r)
  | _, _ => EmptyString
  end.

Fixpoint after_chars (n : nat) (s : string) {struct s} : string :=
  match s, n with
  | String c r, S n' => after_chars n' r
  | _, _ => s
  end.

Fixpoint only_spaces (s : string) : bool :=
  match s with
  | EmptyString => true
  | String c r => Ascii.eqb c " " && only_spaces r
  end.

(** The value a text parameter leaves in a VARCHAR(255) column.  The server
    refuses a text that holds U+0000 when it reads the parameter.  A text of
    more than 255 characters is refused too, unless the characters past the
    255th are all spaces: then they are cut off and the first 255 are kept.
    (The first 255 characters fail to be a value of the column only when
    they hold U+0000.) *)
Definition assign_varchar255 (s : string) : outcome varchar255 :=
  match as_varchar255 (first_chars 255 s) with
  | None => Throw "invalid byte sequence for encoding UTF8: 0x00"
  | Some t =>
      if has_nul s then Throw "invalid byte sequence for encoding UTF8: 0x00"
      else if fits_varchar255 s || only_spaces (after_chars 255 s) then
        Return t
      else Throw "value too long for type character varying(255)"
  end.

Arguments assign_varchar255 : simpl never.

(** The same for a parameter that may be NULL. *)
Definition assign_nullable (o : option string) : outcome (option varchar255) :=
  match o with
  | None => Return None
  | Some s =>
      match assign_varchar255 s with
      | Return t => Return (Some t)
      | Throw m => Throw m
      end
  end.

(** *** The tables *)

(** users (id SERIAL PRIMARY KEY,
           username VARCHAR(255) UNIQUE NOT NULL,
           password_hash VARCHAR(255) NOT NULL) *)
Record user_row : Type := mk_user {
  id : Z;
  username_stored : varchar255;
  password_hash_stored : varchar255
}.

Definition username (u : user_row) : string := chars (username_stored u).
Definition password_hash (u : user_row) : string :=
  chars (password_hash_stored u).

(** user_profiles (user_id INT NOT NULL,
                   display_name VARCHAR(255) DEFAULT 'No name set yet.',
                   bio VARCHAR(255) DEFAULT 'No bio set yet.',
                   FOREIGN KEY (user_id) REFERENCES users(id) ON DELETE CASCADE)
    The two text columns are nullable: [None] is SQL NULL. *)
Record profile_row : Type := mk_profile {
  user_id : Z;
  display_name_stored : option varchar255;
  bio_stored : option varchar255
}.

Definition display_name (p : profile_row) : option string :=
  option_map chars (display_name_stored p).
Definition bio (p : profile_row) : option string :=
  option_map chars (bio_stored p).

(** [users_id_seq] is the last value the sequence of users.id gave out. *)
Record database : Type := mk_db {
  users : list user_row;
  user_profiles : list profile_row;
  users_id_seq : Z
}.

Definition default_display_name : varchar255 :=
  mk_varchar "No name set yet." eq_refl.
Definition default_bio : varchar255 :=
  mk_varchar "No bio set yet." eq_refl.

(** The columns an UPDATE of user_profiles assigns in this program. *)
Inductive column : Type := col_display_name | col_bio.

(** The statements the handlers send, one constructor per SQL text.
    An assignment [(c, k)] of [setClause] is the text [c = $k];
    [whereClause] k is the text [WHERE user_id = $k]. *)
Inductive statement : Type :=
| SELECT_users_WHERE_username
    (* SELECT * FROM users WHERE username = $1 *)
| INSERT_INTO_users
    (* INSERT INTO users (username, password_hash) VALUES ($1, $2) RETURNING * *)
| INSERT_INTO_user_profiles
    (* INSERT INTO user_profiles (user_id) VALUES ($1) *)
| UPDATE_user_profiles (setClause : list (column * nat)) (whereClause : nat)
    (* UPDATE user_profiles SET <setClause joined by ', '> WHERE user_id = $k *)
| DELETE_FROM_users_WHERE_id.
    (* DELETE FROM users WHERE id = $1; *)

Record query_result : Type := mk_result {
  rows : list user_row;
  rowCount : nat
}.

(** *** Parameters *)

(** The text the driver sends for a parameter ([None] is NULL): a string as
    it is, any other value by its JavaScript text. *)
Definition pg_text (v : jsval) : option string :=
  match v with
  | JUndefined | JNull => None
  | JBool true => Some "true"
  | JBool false => Some "false"
  | JNum n => Some (Number_toString n)
  | JStr s => Some s
  | JObj inner => Some ("{" ++ inner ++ "}")
  end.

(** A parameter compared with an integer column.  The program only ever
    passes a number (a [users.id]) there; any other text is reported as an
    input error. *)
Definition pg_int (v : jsval) : outcome (option Z) :=
  match v with
  | JUndefined | JNull => Return None
  | JNum n => Return (Some n)
  | _ => Throw "invalid input syntax for type integer"
  end.

(** [$k] of a statement, bound to the k-th entry of the values array. *)
Definition placeholder (values : list jsval) (k : nat) : outcome jsval :=
  match k with
  | O => Throw "there is no parameter $0"
  | S k' =>
      match nth_error values k' with
      | Some v => Return v
      | None => Throw "bind message supplies too few parameters"
      end
  end.

(** *** Execution of one statement *)

(** SELECT * FROM users WHERE username = $1.  The parameter is compared as
    it was sent, whatever its length; a text that holds U+0000 is refused
    and the query rejected.  A comparison with NULL selects no row. *)
Definition select_users_by_username (d : database) (name : option string)
  : outcome (list user_row) :=
  match name with
  | None => Return []
  | Some n =>
      if has_nul n then Throw "invalid byte sequence for encoding UTF8: 0x00"
      else Return (filter (fun u => (username u =? n)%string) (users d))
  end.

(** INSERT INTO users (username, password_hash) VALUES ($1, $2) RETURNING *.
    The two parameters are first brought to VARCHAR(255); a refusal there
    ends the statement before it has touched anything.  Then id takes the
    next value of the sequence, and the sequence keeps that step even when
    the row is turned down afterwards: both columns are NOT NULL and
    username is UNIQUE. *)
Definition insert_user (d : database) (name hash : option string)
  : outcome query_result * database :=
  match assign_nullable name, assign_nullable hash with
  | Throw m, _ | _, Throw m => (Throw m, d)
  | Return name', Return hash' =>
      let nextval := users_id_seq d + 1 in
      let d' := mk_db (users d) (user_profiles d) nextval in
      match name', hash' with
      | Some n, Some h =>
          if existsb (fun u => (username u =? chars n)%string) (users d) then
            (Throw "duplicate key value violates unique constraint", d')
          else
            let u := mk_user nextval n h in
            (Return (mk_result [u] 1),
             mk_db (users d ++ [u]) (user_profiles d) nextval)
      | _, _ => (Throw "null value violates not-null constraint", d')
      end
  end.

(** INSERT INTO user_profiles (user_id) VALUES ($1).  user_id is NOT NULL
    and references users(id); the two other columns take their DEFAULT. *)
Definition insert_profile (d : database) (uid : option Z)
  : outcome query_result * database :=
  match uid with
  | None => (Throw "null value violates not-null constraint", d)
  | Some n =>
      if existsb (fun u => id u =? n) (users d) then
        (Return (mk_result [] 1),
         mk_db (users d)
               (user_profiles d ++
                  [mk_profile n (Some default_display_name) (Some default_bio)])
               (users_id_seq d))
      else (Throw "violates foreign key constraint", d)
  end.

(** The assignments of a SET clause, each with its bound text. *)
Fixpoint bind_assignments (values : list jsval) (sc : list (column * nat))
  : outcome (list (column * option string)) :=
  match sc with
  | [] => Return []
  | (c, k) :: sc' =>
      match placeholder values k with
      | Throw m => Throw m
      | Return v =>
          match bind_assignments values sc' with
          | Throw m => Throw m
          | Return l => Return ((c, pg_text v) :: l)
          end
      end
  end.

(** The same assignments with each text brought to VARCHAR(255), the type
    of both columns. *)
Fixpoint assign_columns (l : list (column * option string))
  : outcome (list (column * option varchar255)) :=
  match l with
  | [] => Return []
  | (c, o) :: l' =>
      match assign_nullable o with
      | Throw m => Throw m
      | Return t =>
          match assign_columns l' with
          | Throw m => Throw m
          | Return r => Return ((c, t) :: r)
          end
      end
  end.

Definition assign (p : profile_row) (a : column * option varchar255)
  : profile_row :=
  match fst a with
  | col_display_name => mk_profile (user_id p) (snd a) (bio_stored p)
  | col_bio => mk_profile (user_id p) (display_name_stored p) (snd a)
  end.

(** One row under an UPDATE.  The columns of a SET list are distinct in this
    program, so the assignments can be applied one after the other. *)
Definition update_row (uid : Z) (l : list (column * option varchar255))
  (p : profile_row) : profile_row :=
  if user_id p =? uid then fold_left assign l p else p.

(** UPDATE user_profiles SET ... WHERE user_id = $k.  SQL wants at least one
    assignment after SET: with none, the text reads
    [UPDATE user_profiles SET  WHERE user_id = $1] and the server rejects it
    as a syntax error.  The texts are brought to VARCHAR(255) before any row
    is looked at, so a text the column refuses ends the statement whatever
    the WHERE selects.  rowCount is the number of rows the WHERE selects. *)
Definition update_profiles (d : database) (values : list jsval)
  (sc : list (column * nat)) (wc : nat) : outcome query_result * database :=
  match sc with
  | [] => (Throw "syntax error at or near WHERE", d)
  | _ :: _ =>
      match bind_assignments values sc, placeholder values wc with
      | Throw m, _ | _, Throw m => (Throw m, d)
      | Return l, Return w =>
          match pg_int w, assign_columns l with
          | Throw m, _ | _, Throw m => (Throw m, d)
          | Return None, Return _ => (Return (mk_result [] 0), d)
          | Return (Some uid), Return l' =>
              (Return (mk_result []
                 (length (filter (fun p => user_id p =? uid) (user_profiles d)))),
               mk_db (users d)
                     (map (update_row uid l') (user_profiles d))
                     (users_id_seq d))
          end
      end
  end.

(** DELETE FROM users WHERE id = $1, with the ON DELETE CASCADE of
    user_profiles.  rowCount is the number of user rows deleted. *)
Definition delete_user (d : database) (uid : option Z)
  : outcome query_result * database :=
  match uid with
  | None => (Return (mk_result [] 0), d)
  | Some n =>
      (Return (mk_result []
         (length (filter (fun u => id u =? n) (users d)))),
       mk_db (filter (fun u => negb (id u =? n)) (users d))
             (filter (fun p => negb (user_id p =? n)) (user_profiles d))
             (users_id_seq d))
  end.

(** What the server does with a statement and its values array.  A rejected
    statement leaves the rows of both tables as they were. *)
Definition exec (q : statement) (values : list jsval) (d : database)
  : outcome query_result * database :=
  match q with
  | SELECT_users_WHERE_username =>
      match placeholder values 1 with
      | Throw m => (Throw m, d)
      | Return v =>
          match select_users_by_username d (pg_text v) with
          | Throw m => (Throw m, d)
          | Return r => (Return (mk_result r (length r)), d)
          end
      end
  | INSERT_INTO_users =>
      match placeholder values 1, placeholder values 2 with
      | Return n, Return h => insert_user d (pg_text n) (pg_text h)
      | Throw m, _ | _, Throw m => (Throw m, d)
      end
  | INSERT_INTO_user_profiles =>
      match placeholder values 1 with
      | Throw m => (Throw m, d)
      | Return v =>
          match pg_int v with
          | Throw m => (Throw m, d)
          | Return uid => insert_profile d uid
          end
      end
  | UPDATE_user_profiles sc wc => update_profiles d values sc wc
  | DELETE_FROM_users_WHERE_id =>
      match placeholder values 1 with
      | Throw m => (Throw m, d)
      | Return v =>
          match pg_int v with
          | Throw m => (Throw m, d)
          | Return uid => delete_user d uid
          end
      end
  end.

(** ** The libraries *)

(** The payload of a token: [{ id, iat, exp }], times in seconds. *)
Record jwt_payload : Type := mk_payload {
  claim_id : Z;
  iat : Z;
  exp : option Z
}.

Record jwt : Type := mk_jwt {
  payload : jwt_payload;
  signature : string
}.

(** What stays abstract of jsonwebtoken and bcryptjs, two dependencies of
    the repository: the keyed signature, the compact serialisation of a
    token, the salt drawn from the entropy of the process, the hash and its
    comparison with a password. *)
Class Libraries : Type := {
  HS256 : string -> jwt_payload -> string;
  jwt_encode : jwt -> string;
  jwt_decode : string -> option jwt;
  genSalt : Z -> nat -> string;
  hashpw : string -> string -> string;
  checkpw : string -> string -> bool
}.

Inductive verify_error : Type :=
| JsonWebTokenError (msg : string)
| TokenExpiredError.

(** A secret that is set: [if (!secretOrPrivateKey)] is false. *)
Definition secret_given (s : option string) : option string :=
  match s with
  | Some (String a r) => Some (String a r)
  | _ => None
  end.

(** ** The process and its collaborators *)

(** Calls that leave the handler. *)
Inductive event : Type :=
| pool_query_called (q : statement)
| bcrypt_genSalt_called
| bcrypt_hash_called
| bcrypt_compare_called
| jwt_sign_called
| jwt_verify_called.

(** [faults] lists, for the queries still to come, whether the pool rejects
    the call before the statement runs (a lost connection); past its end no
    query is rejected.  [now] is the clock in seconds. *)
Record world : Type := mk_world {
  db : database;
  JWT_SECRET : option string;
  NODE_ENV : option string;
  now : Z;
  faults : list bool;
  entropy : nat;
  log : list event
}.

Definition with_db (w : world) (d : database) : world :=
  mk_world d (JWT_SECRET w) (NODE_ENV w) (now w) (faults w) (entropy w) (log w).
Definition with_faults (w : world) (f : list bool) : world :=
  mk_world (db w) (JWT_SECRET w) (NODE_ENV w) (now w) f (entropy w) (log w).
Definition with_entropy (w : world) (n : nat) : world :=
  mk_world (db w) (JWT_SECRET w) (NODE_ENV w) (now w) (faults w) n (log w).
Definition logged (w : world) (e : event) : world :=
  mk_world (db w) (JWT_SECRET w) (NODE_ENV w) (now w) (faults w) (entropy w)
           (log w ++ [e]).

(** A computation of a handler: it reads and changes the world and either
    returns or throws. *)
Definition M (A : Type) : Type := world -> outcome A * world.

Definition ret {A} (a : A) : M A := fun w => (Return a, w).

Definition bind {A B} (m : M A) (k : A -> M B) : M B :=
  fun w =>
    match m w with
    | (Return a, w') => k a w'
    | (Throw e, w') => (Throw e, w')
    end.

Notation "x <- m ;; k" := (bind m (fun x => k))
  (at level 61, m at next level, right associativity).

(** [try { m } catch (err) { h err }] *)
Definition try_catch {A} (m : M A) (h : string -> M A) : M A :=
  fun w =>
    match m w with
    | (Return a, w') => (Return a, w')
    | (Throw e, w') => h e w'
    end.

(** [process.env.JWT_SECRET], [process.env.NODE_ENV] *)
Definition process_env_JWT_SECRET : M (option string) :=
  fun w => (Return (JWT_SECRET w), w).
Definition process_env_NODE_ENV : M (option string) :=
  fun w => (Return (NODE_ENV w), w).

(** Modelled from the spec: db.js, which creates the pool, is not among the
    sources.  [await pool.query(q, values)] sends one statement to the
    relational store of section 3, whose tables are those of database.sql;
    the call is rejected when the statement fails or the pool does. *)
Definition pool_query (q : statement) (values : list jsval) : M query_result :=
  fun w =>
    let w1 := with_faults (logged w (pool_query_called q)) (tl (faults w)) in
    if hd false (faults w) then
      (Throw "Connection terminated unexpectedly", w1)
    else
      let (r, d) := exec q values (db w) in (r, with_db w1 d).

(** [rows[0]] followed by a property read: a TypeError on an empty array. *)
Definition first_row (r : query_result) : M user_row :=
  match rows r with
  | u :: _ => ret u
  | [] => fun w => (Throw "Cannot read properties of undefined", w)
  end.

Section Application.

Context {L : Libraries}.

(** *** jsonwebtoken *)

(** Modelled from the spec: jsonwebtoken's [sign] is not among the sources.
    The token [jwt.sign({ id }, key, { expiresIn })] produces at time [t]
    embeds the id, the time of issue and the expiry [t + expiresIn], signed
    under [key] (section 4.2, issue). *)
Definition sign_at (key : string) (i : Z) (expiresIn : Z) (t : Z) : string :=
  let p := mk_payload i t (Some (t + expiresIn)) in
  jwt_encode (mk_jwt p (HS256 key p)).

(** Modelled from the spec: jsonwebtoken's [verify] is not among the sources.
    [jwt.verify(token, secret)] at time [t] checks, in this order, that a
    token string is given, that it decodes, that a secret is given, the
    signature under the secret and the expiry against the clock
    (section 4.2, verify); a token that carries no expiry does not expire. *)
Definition verify_at (token : jsval) (secret : option string) (t : Z)
  : verify_error + jwt_payload :=
  if negb (truthy token) then inl (JsonWebTokenError "jwt must be provided")
  else
    match token with
    | JStr s =>
        match jwt_decode s with
        | None => inl (JsonWebTokenError "jwt malformed")
        | Some j =>
            match secret_given secret with
            | None => inl (JsonWebTokenError "secret or public key must be provided")
            | Some key =>
                if negb (signature j =? HS256 key (payload j))%string then
                  inl (JsonWebTokenError "invalid signature")
                else
                  match exp (payload j) with
                  | Some e =>
                      if e <=? t then inl TokenExpiredError
                      else inr (payload j)
                  | None => inr (payload j)
                  end
            end
        end
    | _ => inl (JsonWebTokenError "jwt must be a string")
    end.

Definition jwt_sign (i : Z) (secret : option string) (expiresIn : Z) : M string :=
  fun w =>
    match secret_given secret with
    | Some key =>
        (Return (sign_at key i expiresIn (now w)), logged w jwt_sign_called)
    | None =>
        (Throw "secretOrPrivateKey must have a value", logged w jwt_sign_called)
    end.

Definition jwt_verify (token : jsval) (secret : option string)
  : M (verify_error + jwt_payload) :=
  fun w => (Return (verify_at token secret (now w)), logged w jwt_verify_called).

(** *** bcryptjs *)

(** [await bcrypt.genSalt(rounds)] *)
Definition bcrypt_genSalt (rounds : Z) : M string :=
  fun w =>
    (Return (genSalt rounds (entropy w)),
     with_entropy (logged w bcrypt_genSalt_called) (S (entropy w))).

(** [await bcrypt.hash(password, salt)]: rejects anything but a string. *)
Definition bcrypt_hash (password : jsval) (salt : string) : M string :=
  fun w =>
    match password with
    | JStr p => (Return (hashpw p salt), logged w bcrypt_hash_called)
    | _ => (Throw "Illegal arguments", logged w bcrypt_hash_called)
    end.

(** [await bcrypt.compare(password, hash)]: rejects anything but a string. *)
Definition bcrypt_compare (password : jsval) (hash : string) : M bool :=
  fun w =>
    match password with
    | JStr p => (Return (checkpw p hash), logged w bcrypt_compare_called)
    | _ => (Throw "Illegal arguments", logged w bcrypt_compare_called)
    end.


(** ** Requests and responses *)

(** [req.cookies], [req.body] and the [req.user_id] the gate attaches. *)
Record request : Type := mk_request {
  cookies : object;
  body : object;
  req_user_id : option Z
}.

Definition with_user_id (req : request) (i : Z) : request :=
  mk_request (cookies req) (body req) (Some i).

(** [req.user_id] as a query parameter. *)
Definition user_id_of (req : request) : jsval :=
  match req_user_id req with
  | Some i => JNum i
  | None => JUndefined
  end.

Record cookie_options : Type := mk_options {
  httpOnly : option bool;
  secure : option bool;
  maxAge : option Z;
  sameSite : option string
}.

(** The calls made on [res] before the body is sent. *)
Inductive cookie_call : Type :=
| res_cookie (name value : string) (options : cookie_options)
| res_clearCookie (name : string) (options : cookie_options).

(** [res.status(status).json(json)], after the calls [set_cookie]. *)
Record response : Type := mk_response {
  status : Z;
  json : object;
  set_cookie : list cookie_call
}.

Definition send (code : Z) (o : object) : M response :=
  ret (mk_response code o []).

(** ** middleware/jwtMiddleware.js *)

Definition authenticateJWT (req : request) (next : request -> M response)
  : M response :=
  let token := prop (cookies req) "auth_token" in
  if negb (truthy token) then
    send 401 [("success", JBool false);
              ("message", JStr "Access Denied: No token provided")]
  else
    secret <- process_env_JWT_SECRET ;;
    verified <- jwt_verify token secret ;;
    match verified with
    | inl err =>
        send 403 [("success", JBool false);
                  ("message", JStr "Forbidden: Invalid token")]
    | inr decoded => next (with_user_id req (claim_id decoded))
    end.

(** ** routes/auth.js *)

(** The options of the cookie that carries a token. *)
Definition issuance_options (node_env : option string) : cookie_options :=
  mk_options (Some true)
             (Some match node_env with
                   | Some e => (e =? "production")%string
                   | None => false
                   end)
             (Some 1800000)
             None.

Definition server_error : M response :=
  send 500 [("error", JStr "Server error")].

(** POST /auth/register *)
Definition register (req : request) : M response :=
  try_catch
    (let username := prop (body req) "username" in
     let password := prop (body req) "password" in
     user <- pool_query SELECT_users_WHERE_username [username] ;;
     if (0 <? length (rows user))%nat then
       send 409 [("success", JBool false);
                 ("message",
                  JStr "Username is already in use. Please choose a different one.")]
     else
       salt <- bcrypt_genSalt 10 ;;
       password_hash <- bcrypt_hash password salt ;;
       newUser <- pool_query INSERT_INTO_users [username; JStr password_hash] ;;
       newRow <- first_row newUser ;;
       _ <- pool_query INSERT_INTO_user_profiles [JNum (id newRow)] ;;
       secret <- process_env_JWT_SECRET ;;
       token <- jwt_sign (id newRow) secret 1800 ;;
       node_env <- process_env_NODE_ENV ;;
       ret (mk_response 201
              [("success", JBool true); ("redirect", JStr "/profile")]
              [res_cookie "auth_token" token (issuance_options node_env)]))
    (fun err => server_error).

(** POST /auth/login *)
Definition login (req : request) : M response :=
  let username := prop (body req) "username" in
  let password := prop (body req) "password" in
  try_catch
    (user <- pool_query SELECT_users_WHERE_username [username] ;;
     if (length (rows user) =? 0)%nat then
       send 401 [("success", JBool false);
                 ("message", JStr "Username and/or password is incorrect.")]
     else
       row <- first_row user ;;
       validPassword <- bcrypt_compare password (password_hash row) ;;
       if negb validPassword then
         send 401 [("success", JBool false);
                   ("message", JStr "Username and/or password is incorrect.")]
       else
         secret <- process_env_JWT_SECRET ;;
         token <- jwt_sign (id row) secret 1800 ;;
         node_env <- process_env_NODE_ENV ;;
         ret (mk_response 200
                [("success", JBool true); ("redirect", JStr "/profile")]
                [res_cookie "auth_token" token (issuance_options node_env)]))
    (fun err => server_error).

(** GET /auth/validate, behind the gate *)
Definition validate (req : request) : M response :=
  send 200 [("tokenIsValid", JBool true)].

(** The options logout passes to [res.clearCookie]. *)
Definition logout_options (node_env : option string) : cookie_options :=
  mk_options (Some true)
             (Some match node_env with
                   | Some e => (e =? "production")%string
                   | None => false
                   end)
             None
             (Some "strict").

(** POST /auth/logout *)
Definition logout (req : request) : M response :=
  try_catch
    (node_env <- process_env_NODE_ENV ;;
     ret (mk_response 200 [("success", JBool true)]
            [res_clearCookie "auth_token" (logout_options node_env)]))
    (fun err => server_error).

(** ** routes/profile.js *)

Definition profile_error : M response :=
  send 500 [("success", JBool false);
            ("message", JStr "An error has occurred. Please try again later.")].

(** [setClause], [values] and [element] after the two [if]s of the update
    handler, starting from [[]], [[]] and 1. *)
Definition update_clauses (displayName bio : jsval)
  : list (column * nat) * list jsval * nat :=
  let '(setClause, values, element) :=
    (@nil (column * nat), @nil jsval, 1%nat) in
  let '(setClause, values, element) :=
    if truthy displayName then
      ((setClause ++ [(col_display_name, element)])%list,
       (values ++ [displayName])%list, S element)
    else (setClause, values, element) in
  if truthy bio then
    ((setClause ++ [(col_bio, element)])%list, (values ++ [bio])%list,
     S element)
  else (setClause, values, element).

(** PUT /profile/update, behind the gate *)
Definition update (req : request) : M response :=
  try_catch
    (let user_id := user_id_of req in
     let displayName := prop (body req) "displayName" in
     let bio := prop (body req) "bio" in
     let '(setClause, values, element) := update_clauses displayName bio in
     let whereClause := element in
     let values := (values ++ [user_id])%list in
     updateProfile <-
       pool_query (UPDATE_user_profiles setClause whereClause) values ;;
     if (rowCount updateProfile =? 0)%nat then
       send 300 [("success", JBool false);
                 ("message", JStr "Profile could not be updated.")]
     else
       send 200 [("success", JBool true);
                 ("message", JStr "Profile updated.")])
    (fun err => profile_error).

(** DELETE /profile/delete, behind the gate *)
Definition delete (req : request) : M response :=
  try_catch
    (let user_id := user_id_of req in
     deleteUser <- pool_query DELETE_FROM_users_WHERE_id [user_id] ;;
     if (rowCount deleteUser =? 0)%nat then
       send 404 [("success", JBool false);
                 ("message", JStr "User to delete not found.")]
     else
       send 200 [("success", JBool true);
                 ("message", JStr "User deleted.");
                 ("redirect", JStr "/")])
    (fun err => profile_error).

(** The protected routes. *)
Definition GET_auth_validate (req : request) : M response :=
  authenticateJWT req validate.
Definition PUT_profile_update (req : request) : M response :=
  authenticateJWT req update.
Definition DELETE_profile_delete (req : request) : M response :=
  authenticateJWT req delete.

End Application.

(** ** A concrete instance of the libraries

    A stand-in for jsonwebtoken and bcryptjs with which the handlers can be
    run: numbers are written in unary, a token is the text
    [id.iat.exp.signature]. *)
Module Demo.

Fixpoint ones (n : nat) : string :=
  match n with
  | O => EmptyString
  | S n' => String "1" (ones n')
  end.

Fixpoint read_ones (s : string) : nat * string :=
  match s with
  | String c r =>
      if Ascii.eqb c "1" then let (n, r') := read_ones r in (S n, r')
      else (O, s)
  | EmptyString => (O, s)
  end.

Definition write_Z (z : Z) : string :=
  String (if z <? 0 then "-"%char else "+"%char) (ones (Z.abs_nat z)).

Definition read_Z (s : string) : option (Z * string) :=
  match s with
  | String c r =>
      let (n, r') := read_ones r in
      if Ascii.eqb c "+" then Some (Z.of_nat n, r')
      else if Ascii.eqb c "-" then Some (- Z.of_nat n, r')
      else None
  | EmptyString => None
  end.

Definition write_exp (e : option Z) : string :=
  match e with
  | Some z => write_Z z
  | None => "~"
  end.

Definition read_exp (s : string) : option (option Z * string) :=
  match s with
  | String c r =>
      if Ascii.eqb c "~" then Some (None, r)
      else match read_Z s with
           | Some (z, r') => Some (Some z, r')
           | None => None
           end
  | EmptyString => None
  end.

Definition dot (s : string) : option string :=
  match s with
  | String c r => if Ascii.eqb c "." then Some r else None
  | EmptyString => None
  end.

Definition encode (j : jwt) : string :=
  write_Z (claim_id (payload j)) ++ "." ++
  write_Z (iat (payload j)) ++ "." ++
  write_exp (exp (payload j)) ++ "." ++ signature j.

Definition decode (s : string) : option jwt :=
  match read_Z s with
  | None => None
  | Some (i, s1) =>
      match dot s1 with
      | None => None
      | Some s2 =>
          match read_Z s2 with
          | None => None
          | Some (t, s3) =>
              match dot s3 with
              | None => None
              | Some s4 =>
                  match read_exp s4 with
                  | None => None
                  | Some (e, s5) =>
                      match dot s5 with
                      | None => None
                      | Some sig => Some (mk_jwt (mk_payload i t e) sig)
                      end
                  end
              end
          end
      end
  end.

Definition mac (key : string) (p : jwt_payload) : string :=
  key ++ "/" ++ write_Z (claim_id p) ++ write_Z (iat p) ++ write_exp (exp p).

#[export] Instance libraries : Libraries := {|
  HS256 := mac;
  jwt_encode := encode;
  jwt_decode := decode;
  genSalt := fun rounds n => "salt" ++ ones n;
  hashpw := fun p salt => p ++ "$" ++ salt;
  checkpw := fun p h => String.prefix (p ++ "$") h
|}.

(** A store with one account, its profile, and the profile of nobody else. *)
Definition alice : user_row :=
  mk_user 1 (mk_varchar "alice" eq_refl) (mk_varchar "pw1$salt" eq_refl).
Definition alice_profile : profile_row :=
  mk_profile 1 (Some (mk_varchar "Alice" eq_refl))
             (Some (mk_varchar "hello" eq_refl)).
Definition store : database := mk_db [alice] [alice_profile] 1.

Definition empty_store : database := mk_db [] [] 0.

(** A process with its secret set, at second 5, with a sound pool. *)
Definition process (d : database) : world :=
  mk_world d (Some "s3cret") None 5 [] O [].

Definition world0 : world := process store.

(** A store with a second account. *)
Definition carol : user_row :=
  mk_user 2 (mk_varchar "carol" eq_refl) (mk_varchar "pw2$salt" eq_refl).
Definition two_accounts : database :=
  mk_db [alice; carol]
        [alice_profile;
         mk_profile 2 (Some (mk_varchar "Carol" eq_refl))
                    (Some (mk_varchar "hi there" eq_refl))] 2.



Definition credentials (u p : string) : request :=
  mk_request [] [("username", JStr u); ("password", JStr p)] None.

Definition with_cookie (v : jsval) (b : object) : request :=
  mk_request [("auth_token", v)] b None.

(** The token of user 1, issued at second 5. *)
Definition token1 : string := sign_at "s3cret" 1 1800 5.

(** The fixtures of test/auth.test.js and test/profile.test.js: the test
    user, alone in users for the first suite, with a profile for the second,
    and a token signed under another secret. *)
Definition testuser : user_row :=
  mk_user 7 (mk_varchar "testuser" eq_refl)
          (mk_varchar "testpassword$salt" eq_refl).

Definition auth_fixture : world :=
  process (mk_db [testuser] [] 7).

Definition profile_fixture : world :=
  process (mk_db [testuser]
             [mk_profile 7 (Some (mk_varchar "Test User" eq_refl))
                (Some (mk_varchar "This is @testuser's bio." eq_refl))]
             7).

Definition testToken : string := sign_at "s3cret" 7 1800 5.

Definition invalidToken : string :=
  let p := mk_payload 99 5 None in
  jwt_encode (mk_jwt p (HS256 "wrongsecret" p)).

End Demo.

(** ** Vocabulary of the statements *)

(** The object [o] without its property [k]. *)
Definition without (o : object) (k : string) : object :=
  filter (fun kv => negb (fst kv =? k)%string) o.

Definition with_body (req : request) (b : object) : request :=
  mk_request (cookies req) b (req_user_id req).

(** Every user row has a profile row. *)
Definition every_user_has_profile (d : database) : bool :=
  forallb (fun u => existsb (fun p => user_id p =? id u) (user_profiles d))
          (users d).

(** No row of users carries the name. *)
Definition username_free (d : database) (name : option string) : Prop :=
  forall u, In u (users d) -> name <> Some (username u).

(** A parameter the server can read as a text: NULL, or a text that holds
    no U+0000. *)
Definition readable (o : option string) : bool :=
  match o with
  | None => true
  | Some s => negb (has_nul s)
  end.

(** The bodies of the rejections. *)
Definition no_token_provided : response :=
  mk_response 401
    [("success", JBool false);
     ("message", JStr "Access Denied: No token provided")] [].

Definition invalid_token : response :=
  mk_response 403
    [("success", JBool false);
     ("message", JStr "Forbidden: Invalid token")] [].

Definition incorrect_credentials : response :=
  mk_response 401
    [("success", JBool false);
     ("message", JStr "Username and/or password is incorrect.")] [].

Definition username_in_use : response :=
  mk_response 409
    [("success", JBool false);
     ("message",
      JStr "Username is already in use. Please choose a different one.")] [].

Definition could_not_be_updated : response :=
  mk_response 300
    [("success", JBool false);
     ("message", JStr "Profile could not be updated.")] [].

Definition error_has_occurred : response :=
  mk_response 500
    [("success", JBool false);
     ("message", JStr "An error has occurred. Please try again later.")] [].

Definition user_to_delete_not_found : response :=
  mk_response 404
    [("success", JBool false);
     ("message", JStr "User to delete not found.")] [].

Definition server_error_response : response :=
  mk_response 500 [("error", JStr "Server error")] [].

(** The tables after the user insert of a registration, and after its
    profile insert. *)
Definition user_added (d : database) (u : user_row) : database :=
  mk_db (users d ++ [u]) (user_profiles d) (id u).

Definition default_profile (i : Z) : profile_row :=
  mk_profile i (Some default_display_name) (Some default_bio).

Definition user_and_profile_added (d : database) (u : user_row) : database :=
  mk_db (users d ++ [u]) (user_profiles d ++ [default_profile (id u)]) (id u).

(** The response that carries a fresh token. *)
Definition token_issued (code : Z) (token : string) (node_env : option string)
  : response :=
  mk_response code
    [("success", JBool true); ("redirect", JStr "/profile")]
    [res_cookie "auth_token" token (issuance_options node_env)].

(** The assignments an update carries: one for each truthy field. *)
Definition assignments (displayName bio : jsval)
  : list (column * option string) :=
  ((if truthy displayName then [(col_display_name, pg_text displayName)]
    else []) ++
   (if truthy bio then [(col_bio, pg_text bio)] else []))%list.

Definition profile_updated : response :=
  mk_response 200
    [("success", JBool true); ("message", JStr "Profile updated.")] [].

(** A text that a VARCHAR(255) column takes: it holds no U+0000 and nothing
    but spaces past its 255th character. *)
Definition takes_varchar255 (s : string) : bool :=
  negb (has_nul s) && (fits_varchar255 s || only_spaces (after_chars 255 s)).

Definition assignment_fits (a : column * option string) : bool :=
  match snd a with
  | None => true
  | Some s => takes_varchar255 s
  end.

(** A text as a VARCHAR(255) column keeps it: its first 255 characters. *)
Definition kept255 (o : option string) : option string :=
  option_map (first_chars 255) o.

(** A text column after an update: as it was, or a text that is not empty. *)
Definition kept_or_nonempty (before after : option string) : Prop :=
  after = before \/ exists s, after = Some s /\ s <> EmptyString.

(** ** routes/profile.js, GET /profile/view *)

(** A row of
    [SELECT users.username, user_profiles.display_name, user_profiles.bio
     FROM users INNER JOIN user_profiles ON users.id = user_profiles.user_id
     WHERE users.id = $1;] *)
Record view_row : Type := mk_view {
  view_username : string;
  view_display_name : option string;
  view_bio : option string
}.

(** The join: the profile rows of the user rows with the id, user row by
    user row.  A comparison with NULL selects no row. *)
Definition select_profile_view (d : database) (uid : option Z)
  : list view_row :=
  match uid with
  | None => []
  | Some n =>
      flat_map
        (fun u =>
           if id u =? n then
             map (fun p => mk_view (username u) (display_name p) (bio p))
                 (filter (fun p => user_id p =? id u) (user_profiles d))
           else [])
        (users d)
  end.

(** [await pool.query(...)] for the join.  It reads the tables and takes
    its turn among the queries the pool may reject; the log of calls keeps to
    the statements of [statement] and does not list it. *)
Definition pool_query_view (values : list jsval) : M (list view_row) :=
  fun w =>
    let w1 := with_faults w (tl (faults w)) in
    if hd false (faults w) then
      (Throw "Connection terminated unexpectedly", w1)
    else
      match placeholder values 1 with
      | Throw m => (Throw m, w1)
      | Return v =>
          match pg_int v with
          | Throw m => (Throw m, w1)
          | Return uid => (Return (select_profile_view (db w) uid), w1)
          end
      end.

(** *** The row as [res.json] writes it *)

Definition quote : string := String (ascii_of_nat 34) EmptyString.
Definition backslash : string := String (ascii_of_nat 92) EmptyString.

Definition hex_digit (n : nat) : ascii :=
  match get n "0123456789abcdef" with
  | Some c => c
  | None => "0"%char
  end.

(** One character inside a JSON string: the quote, the backslash and the
    control characters are escaped. *)
Definition json_escape_char (c : ascii) : string :=
  let n := nat_of_ascii c in
  if (n =? 34)%nat then backslash ++ quote
  else if (n =? 92)%nat then backslash ++ backslash
  else if (n =? 8)%nat then backslash ++ "b"
  else if (n =? 9)%nat then backslash ++ "t"
  else if (n =? 10)%nat then backslash ++ "n"
  else if (n =? 12)%nat then backslash ++ "f"
  else if (n =? 13)%nat then backslash ++ "r"
  else if (n <? 32)%nat then
    backslash ++ "u00" ++
    String (hex_digit (n / 16)) (String (hex_digit (n mod 16)) EmptyString)
  else String c EmptyString.

Fixpoint json_escape (s : string) : string :=
  match s with
  | EmptyString => EmptyString
  | String c r => json_escape_char c ++ json_escape r
  end.

Definition json_string (s : string) : string :=
  quote ++ json_escape s ++ quote.

Definition json_nullable (o : option string) : string :=
  match o with
  | Some s => json_string s
  | None => "null"
  end.

(** [rows[0]] as the value of [data]: an object with the three columns. *)
Definition row_object (r : view_row) : jsval :=
  JObj (json_string "username" ++ ":" ++ json_string (view_username r) ++ "," ++
        json_string "display_name" ++ ":" ++
        json_nullable (view_display_name r) ++ "," ++
        json_string "bio" ++ ":" ++ json_nullable (view_bio r)).

Definition profile_not_found : response :=
  mk_response 404
    [("success", JBool false); ("message", JStr "Profile not found.")] [].

Definition profile_found (r : view_row) : response :=
  mk_response 200 [("success", JBool true); ("data", row_object r)] [].

(** GET /profile/view, behind the gate *)
Definition view (req : request) : M response :=
  try_catch
    (let user_id := user_id_of req in
     userProfile <- pool_query_view [user_id] ;;
     if (length userProfile =? 0)%nat then
       send 404 [("success", JBool false);
                 ("message", JStr "Profile not found.")]
     else
       send 200 [("success", JBool true);
                 ("data", match userProfile with
                          | r :: _ => row_object r
                          | [] => JUndefined
                          end)])
    (fun err =>
       send 500 [("success", JBool false);
                 ("message",
                  JStr "An error has occurred. Please try again later.")]).

Definition GET_profile_view {L : Libraries} (req : request) : M response :=
  authenticateJWT req view.

(** ** More vocabulary *)

(** The world when the clock shows [t]. *)
Definition at_time (w : world) (t : Z) : world :=
  mk_world (db w) (JWT_SECRET w) (NODE_ENV w) t (faults w) (entropy w) (log w).

(** What the handlers keep of the tables: names and ids of users are
    unique, no id is ahead of the sequence, every profile row belongs to a
    user row, and no user has two profile rows. *)
Definition consistent (d : database) : Prop :=
  NoDup (map username (users d)) /\
  NoDup (map id (users d)) /\
  (forall i, In i (map id (users d)) -> i <= users_id_seq d) /\
  incl (map user_id (user_profiles d)) (map id (users d)) /\
  NoDup (map user_id (user_profiles d)).

(** A computation that leaves the environment of the process and the clock
    alone, and a sound pool sound. *)
Definition steady {A} (m : M A) : Prop :=
  forall w,
    JWT_SECRET (snd (m w)) = JWT_SECRET w /\
    NODE_ENV (snd (m w)) = NODE_ENV w /\
    now (snd (m w)) = now w /\
    (faults w = [] -> faults (snd (m w)) = []).


(** The four routes behind the gate and the three public ones. *)
Inductive protected_route : Type :=
| route_validate | route_view | route_update | route_delete.

Definition protected {L : Libraries} (r : protected_route)
  : request -> M response :=
  match r with
  | route_validate => GET_auth_validate
  | route_view => GET_profile_view
  | route_update => PUT_profile_update
  | route_delete => DELETE_profile_delete
  end.

Inductive public_route : Type :=
| route_register | route_login | route_logout.

Definition public {L : Libraries} (r : public_route)
  : request -> M response :=
  match r with
  | route_register => register
  | route_login => login
  | route_logout => logout
  end.

(** * Properties *)

Section Gate.

Context {L : Libraries}.

Lemma verified_token_is_truthy token secret t decoded :
  verify_at token secret t = inr decoded -> truthy token = true.
Proof.
  unfold verify_at. destruct (truthy token); simpl; [reflexivity | discriminate].
Qed.

Lemma gate_passes req next w decoded :
  verify_at (prop (cookies req) "auth_token") (JWT_SECRET w) (now w) = inr decoded ->
  authenticateJWT req next w =
  next (with_user_id req (claim_id decoded)) (logged w jwt_verify_called).
Proof.
  intros Hv. pose proof (verified_token_is_truthy _ _ _ _ Hv) as Ht.
  unfold authenticateJWT. rewrite Ht. simpl.
  unfold bind, process_env_JWT_SECRET, jwt_verify. simpl.
  rewrite Hv. reflexivity.
Qed.

Lemma gate_rejects_falsy req next w :
  truthy (prop (cookies req) "auth_token") = false ->
  authenticateJWT req next w = (Return no_token_provided, w).
Proof.
  intros Ht. unfold authenticateJWT. rewrite Ht. reflexivity.
Qed.

Lemma gate_rejects_unverified req next w e :
  truthy (prop (cookies req) "auth_token") = true ->
  verify_at (prop (cookies req) "auth_token") (JWT_SECRET w) (now w) = inl e ->
  authenticateJWT req next w =
  (Return invalid_token, logged w jwt_verify_called).
Proof.
  intros Ht Hv. unfold authenticateJWT. rewrite Ht. simpl.
  unfold bind, process_env_JWT_SECRET, jwt_verify. simpl.
  rewrite Hv. reflexivity.
Qed.

(** All the gate does to the world is at most one call of [jwt.verify]. *)
Lemma gate_trichotomy req next w :
  (exists r, authenticateJWT req next w = (Return r, w)) \/
  (exists r, authenticateJWT req next w =
             (Return r, logged w jwt_verify_called)) \/
  (exists decoded,
     verify_at (prop (cookies req) "auth_token") (JWT_SECRET w) (now w)
       = inr decoded /\
     authenticateJWT req next w =
     next (with_user_id req (claim_id decoded)) (logged w jwt_verify_called)).
Proof.
  destruct (truthy (prop (cookies req) "auth_token")) eqn:Ht.
  - destruct (verify_at (prop (cookies req) "auth_token") (JWT_SECRET w) (now w))
      as [e | decoded] eqn:Hv.
    + right; left. eexists. eapply gate_rejects_unverified; eassumption.
    + right; right. exists decoded. split; [reflexivity |].
      apply gate_passes. exact Hv.
  - left. eexists. apply gate_rejects_falsy. exact Ht.
Qed.

(** C1, as amended.  The gate reads the cookie [auth_token].  When the cookie
    is missing or its value is falsy (the empty string), the answer is 401
    "Access Denied: No token provided" and verification is not attempted: the
    world, its log included, is untouched.  When the value is truthy and
    verification fails, for whatever reason, the answer is 403
    "Forbidden: Invalid token".  When verification succeeds the id of the
    token is attached to the request and the handler runs; behind the gate
    GET /auth/validate answers 200 [{tokenIsValid: true}]. *)
Theorem authenticateJWT_decides (req : request) (next : request -> M response)
  (w : world) :
  let token := prop (cookies req) "auth_token" in
  (truthy token = false ->
   authenticateJWT req next w = (Return no_token_provided, w)) /\
  (truthy token = true ->
   forall e, verify_at token (JWT_SECRET w) (now w) = inl e ->
   authenticateJWT req next w =
   (Return invalid_token, logged w jwt_verify_called)) /\
  (forall decoded, verify_at token (JWT_SECRET w) (now w) = inr decoded ->
   authenticateJWT req next w =
   next (with_user_id req (claim_id decoded)) (logged w jwt_verify_called) /\
   GET_auth_validate req w =
   (Return (mk_response 200 [("tokenIsValid", JBool true)] []),
    logged w jwt_verify_called)).
Proof.
  intros token. split; [| split].
  - apply gate_rejects_falsy.
  - intros Ht e He. eapply gate_rejects_unverified; eassumption.
  - intros decoded Hd. split.
    + apply gate_passes; assumption.
    + unfold GET_auth_validate. rewrite (gate_passes _ _ _ _ Hd). reflexivity.
Qed.

End Gate.

Section Store.

Lemma filter_none {A} (f : A -> bool) (l : list A) :
  (forall x, In x l -> f x = false) -> filter f l = [].
Proof.
  induction l as [| a l IH]; intros H; simpl; [reflexivity |].
  rewrite (H a (or_introl eq_refl)). apply IH.
  intros x Hx. apply H. right. exact Hx.
Qed.

Lemma filter_some {A} (f : A -> bool) (l : list A) (x : A) :
  In x l -> f x = true -> exists y r, filter f l = y :: r.
Proof.
  intros Hin Hf. destruct (filter f l) as [| y r] eqn:E; [| eauto].
  assert (Hx : In x (filter f l)) by (apply filter_In; auto).
  rewrite E in Hx. destruct Hx.
Qed.

(** Two values of a column are the same when their characters are. *)
Lemma varchar255_ext (a b : varchar255) : chars a = chars b -> a = b.
Proof.
  destruct a as [a Ha], b as [b Hb]. simpl. intros E. subst b.
  f_equal. apply UIP_dec. apply bool_dec.
Qed.

Lemma as_varchar255_some s (H : is_varchar255 s = true) :
  as_varchar255 s = Some (mk_varchar s H).
Proof.
  unfold as_varchar255.
  generalize (eq_refl (is_varchar255 s)).
  generalize (is_varchar255 s) at 2 3.
  intros b e. destruct b.
  - f_equal. apply varchar255_ext. reflexivity.
  - exfalso. congruence.
Qed.

Lemma as_varchar255_none s :
  is_varchar255 s = false -> as_varchar255 s = None.
Proof.
  intros H. unfold as_varchar255.
  generalize (eq_refl (is_varchar255 s)).
  generalize (is_varchar255 s) at 2 3.
  intros b e. destruct b; [| reflexivity].
  exfalso. congruence.
Qed.

Lemma as_varchar255_chars s t : as_varchar255 s = Some t -> chars t = s.
Proof.
  destruct (is_varchar255 s) eqn:E.
  - rewrite (as_varchar255_some s E). intros H. injection H as <-. reflexivity.
  - rewrite (as_varchar255_none s E). discriminate.
Qed.

Lemma stored_text_has_no_nul (t : varchar255) : has_nul (chars t) = false.
Proof.
  pose proof (chars_ok t) as H. unfold is_varchar255 in H.
  apply andb_true_iff in H. destruct H as [H _].
  apply negb_true_iff. exact H.
Qed.

Lemma stored_text_fits (t : varchar255) : fits_varchar255 (chars t) = true.
Proof.
  pose proof (chars_ok t) as H. unfold is_varchar255 in H.
  apply andb_true_iff in H. tauto.
Qed.

Lemma first_chars_length n s : (String.length (first_chars n s) <= n)%nat.
Proof.
  revert n. induction s as [| c r IH]; intros n; simpl; [lia |].
  destruct n as [| n]; simpl; [lia |]. specialize (IH n). lia.
Qed.

Lemma first_chars_all n s :
  (String.length s <= n)%nat -> first_chars n s = s.
Proof.
  revert n. induction s as [| c r IH]; intros n H; [reflexivity |].
  simpl in H. destruct n as [| n]; [lia |]. simpl.
  rewrite IH; [reflexivity | lia].
Qed.

Lemma first_chars_fits s :
  fits_varchar255 s = true -> first_chars 255 s = s.
Proof.
  intros H. apply first_chars_all. apply Nat.leb_le. exact H.
Qed.

Lemma first_chars_no_nul n s :
  has_nul s = false -> has_nul (first_chars n s) = false.
Proof.
  revert n. induction s as [| c r IH]; intros n H; [reflexivity |].
  destruct n as [| n]; [reflexivity |]. simpl in *.
  apply orb_false_iff in H. destruct H as [H1 H2].
  rewrite H1. simpl. apply IH. exact H2.
Qed.

Lemma first_chars_not_empty n s :
  s <> EmptyString -> first_chars (S n) s <> EmptyString.
Proof. destruct s; [contradiction | discriminate]. Qed.

Lemma first_chars_is_varchar255 s :
  has_nul s = false -> is_varchar255 (first_chars 255 s) = true.
Proof.
  intros H. unfold is_varchar255.
  rewrite (first_chars_no_nul _ _ H).
  apply Nat.leb_le. apply first_chars_length.
Qed.

(** A text that the column takes is kept by its first 255 characters. *)
Lemma assign_varchar255_takes s :
  takes_varchar255 s = true ->
  exists t, assign_varchar255 s = Return t /\ chars t = first_chars 255 s.
Proof.
  unfold takes_varchar255. intros H. apply andb_true_iff in H.
  destruct H as [H1 H2]. apply negb_true_iff in H1.
  unfold assign_varchar255.
  pose proof (first_chars_is_varchar255 s H1) as Hok.
  rewrite (as_varchar255_some _ Hok).
  rewrite H1, H2. eexists. split; reflexivity.
Qed.

(** The column keeps nothing else. *)
Lemma assign_varchar255_returns s t :
  assign_varchar255 s = Return t ->
  takes_varchar255 s = true /\ chars t = first_chars 255 s.
Proof.
  unfold assign_varchar255, takes_varchar255.
  destruct (as_varchar255 (first_chars 255 s)) as [t' |] eqn:E; [| discriminate].
  destruct (has_nul s); [discriminate |].
  destruct (fits_varchar255 s || only_spaces (after_chars 255 s));
    [| discriminate].
  intros H. injection H as <-. split; [reflexivity |].
  apply as_varchar255_chars. exact E.
Qed.

Lemma assign_varchar255_refuses s :
  takes_varchar255 s = false -> exists m, assign_varchar255 s = Throw m.
Proof.
  intros H. destruct (assign_varchar255 s) as [t | m] eqn:E; [| eauto].
  apply assign_varchar255_returns in E. destruct E as [E _].
  rewrite E in H. discriminate.
Qed.


(** A query the pool does not reject runs its statement on the tables. *)
Lemma pool_query_sound q values w :
  hd false (faults w) = false ->
  pool_query q values w =
  (fst (exec q values (db w)),
   with_db (with_faults (logged w (pool_query_called q)) (tl (faults w)))
           (snd (exec q values (db w)))).
Proof.
  intros Hf. unfold pool_query. rewrite Hf.
  destruct (exec q values (db w)); reflexivity.
Qed.

(** A query the pool rejects throws and leaves the tables alone. *)
Lemma pool_query_rejected q values w :
  hd false (faults w) = true ->
  pool_query q values w =
  (Throw "Connection terminated unexpectedly",
   with_faults (logged w (pool_query_called q)) (tl (faults w))).
Proof.
  intros Hf. unfold pool_query. rewrite Hf. reflexivity.
Qed.

End Store.

Section DeletedAccount.

Context {L : Libraries}.

Lemma delete_of_missing_user req w i :
  req_user_id req = Some i ->
  hd false (faults w) = false ->
  (forall u, In u (users (db w)) -> id u <> i) ->
  exists w',
    delete req w = (Return user_to_delete_not_found, w') /\
    log w' = (log w ++ [pool_query_called DELETE_FROM_users_WHERE_id])%list.
Proof.
  intros Hi Hf Hno.
  unfold delete, try_catch, bind, user_id_of. rewrite Hi.
  rewrite (pool_query_sound _ _ _ Hf). simpl.
  rewrite (filter_none (fun u => id u =? i)).
  - simpl. eexists. split; reflexivity.
  - intros u Hu. apply Z.eqb_neq. apply Hno. exact Hu.
Qed.

(** C8.  The gate never consults the store.  Whatever the request, all the
    gate does to the world is at most one call of [jwt.verify]: it answers
    itself with the world untouched, or answers itself after the
    verification, or hands over to the handler after the verification.  A
    token that verifies is admitted with its id attached whatever the tables
    hold; when no user row has that id, DELETE /profile/delete still reaches
    its handler, which sends the one query and answers 404
    "User to delete not found." *)
Theorem gate_never_consults_store (req : request) (next : request -> M response)
  (w : world) :
  ((exists r, authenticateJWT req next w = (Return r, w)) \/
   (exists r, authenticateJWT req next w =
              (Return r, logged w jwt_verify_called)) \/
   (exists i, authenticateJWT req next w =
              next (with_user_id req i) (logged w jwt_verify_called))) /\
  (forall decoded,
     verify_at (prop (cookies req) "auth_token") (JWT_SECRET w) (now w)
       = inr decoded ->
     authenticateJWT req next w =
     next (with_user_id req (claim_id decoded)) (logged w jwt_verify_called) /\
     (hd false (faults w) = false ->
      (forall u, In u (users (db w)) -> id u <> claim_id decoded) ->
      exists w',
        DELETE_profile_delete req w = (Return user_to_delete_not_found, w') /\
        log w' = (log w ++ [jwt_verify_called;
                            pool_query_called DELETE_FROM_users_WHERE_id])%list)).
Proof.
  split.
  - destruct (gate_trichotomy req next w) as [H | [H | [decoded [_ H]]]].
    + left. exact H.
    + right; left. exact H.
    + right; right. exists (claim_id decoded). exact H.
  - intros decoded Hv. split; [apply gate_passes; exact Hv |].
    intros Hf Hno. unfold DELETE_profile_delete.
    rewrite (gate_passes _ _ _ _ Hv).
    destruct (delete_of_missing_user
                (with_user_id req (claim_id decoded))
                (logged w jwt_verify_called) (claim_id decoded))
      as [w' [Hd Hl]]; try assumption; try reflexivity.
    exists w'. split; [exact Hd |].
    rewrite Hl. simpl. rewrite <- app_assoc. reflexivity.
Qed.

End DeletedAccount.

Section Login.

Context {L : Libraries}.

Lemma select_of_free_name d name :
  username_free d name -> readable name = true ->
  select_users_by_username d name = Return [].
Proof.
  intros Hfree Hr. destruct name as [n |]; simpl; [| reflexivity].
  simpl in Hr. apply negb_true_iff in Hr. rewrite Hr. f_equal.
  apply filter_none. intros u Hu. apply String.eqb_neq.
  intros E. apply (Hfree u Hu). rewrite E. reflexivity.
Qed.

Lemma select_of_unreadable_name d name :
  readable name = false ->
  exists m, select_users_by_username d name = Throw m.
Proof.
  destruct name as [n |]; simpl; [| discriminate].
  intros H. apply negb_false_iff in H. rewrite H. eauto.
Qed.

(** The name of a row is found again: a stored text holds no U+0000. *)
Lemma select_of_taken_name d u :
  In u (users d) ->
  exists y r,
    select_users_by_username d (Some (username u)) = Return (y :: r) /\
    In y (users d) /\ username y = username u.
Proof.
  intros Hin. simpl. unfold username at 1.
  rewrite stored_text_has_no_nul. fold (username u).
  destruct (filter_some (fun v => (username v =? username u)%string)
              (users d) u Hin) as [y [r E]]; [apply String.eqb_refl |].
  exists y, r. split; [rewrite E; reflexivity |].
  assert (Hy : In y (filter (fun v => (username v =? username u)%string)
                            (users d)))
    by (rewrite E; left; reflexivity).
  apply filter_In in Hy. destruct Hy as [Hy1 Hy2].
  split; [exact Hy1 | apply String.eqb_eq; exact Hy2].
Qed.

Lemma login_unknown_username req w :
  hd false (faults w) = false ->
  username_free (db w) (pg_text (prop (body req) "username")) ->
  readable (pg_text (prop (body req) "username")) = true ->
  fst (login req w) = Return incorrect_credentials.
Proof.
  intros Hf Hfree Hr. unfold login, try_catch, bind.
  rewrite (pool_query_sound _ _ _ Hf). simpl.
  rewrite (select_of_free_name _ _ Hfree Hr). reflexivity.
Qed.

Lemma login_wrong_password req w n p :
  hd false (faults w) = false ->
  pg_text (prop (body req) "username") = Some n ->
  (exists u, In u (users (db w)) /\ username u = n) ->
  prop (body req) "password" = JStr p ->
  (forall u, In u (users (db w)) -> username u = n ->
             checkpw p (password_hash u) = false) ->
  fst (login req w) = Return incorrect_credentials.
Proof.
  intros Hf Hn [u [Hin Hu]] Hp Hbad. unfold login, try_catch, bind.
  rewrite (pool_query_sound _ _ _ Hf). cbn [exec placeholder nth_error].
  rewrite Hn. subst n.
  destruct (select_of_taken_name _ _ Hin) as [y [r [E [Hy Hyn]]]].
  rewrite E. simpl. rewrite Hp. unfold bcrypt_compare.
  rewrite (Hbad y Hy Hyn). reflexivity.
Qed.

(** A password that is not a string makes [bcrypt.compare] throw, and the
    answer for a known username is 500. *)
Lemma login_password_not_a_string req w u :
  hd false (faults w) = false ->
  In u (users (db w)) ->
  pg_text (prop (body req) "username") = Some (username u) ->
  (forall p, prop (body req) "password" <> JStr p) ->
  fst (login req w) =
  Return (mk_response 500 [("error", JStr "Server error")] []).
Proof.
  intros Hf Hin Hn Hp. unfold login, try_catch, bind.
  rewrite (pool_query_sound _ _ _ Hf). cbn [exec placeholder nth_error].
  rewrite Hn.
  destruct (select_of_taken_name _ _ Hin) as [y [r [E _]]].
  rewrite E. simpl. unfold bcrypt_compare.
  destruct (prop (body req) "password") eqn:Ep; try reflexivity.
  exfalso. exact (Hp s eq_refl).
Qed.

(** A username that holds U+0000 makes the lookup throw: 500, whatever the
    tables hold. *)
Lemma login_unreadable_username req w :
  hd false (faults w) = false ->
  readable (pg_text (prop (body req) "username")) = false ->
  fst (login req w) =
  Return (mk_response 500 [("error", JStr "Server error")] []).
Proof.
  intros Hf Hr. unfold login, try_catch, bind.
  rewrite (pool_query_sound _ _ _ Hf). cbn [exec placeholder nth_error].
  destruct (select_of_unreadable_name (db w) _ Hr) as [m E].
  rewrite E. reflexivity.
Qed.

(** C2, as amended.  Two failed logins cannot be told apart, as long as the
    password is a string and the store can read the username.  With a pool
    that answers, a login whose username holds no U+0000 and is carried by
    no user row and a login whose username is carried by a row but whose
    password, a string, does not match the stored hash receive the same
    response, field for field: 401 with
    [{success: false, message: "Username and/or password is incorrect."}]
    and no cookie. *)
Theorem login_failures_are_identical (w1 w2 : world) (req1 req2 : request)
  (n2 p2 : string) :
  hd false (faults w1) = false ->
  hd false (faults w2) = false ->
  username_free (db w1) (pg_text (prop (body req1) "username")) ->
  readable (pg_text (prop (body req1) "username")) = true ->
  pg_text (prop (body req2) "username") = Some n2 ->
  (exists u, In u (users (db w2)) /\ username u = n2) ->
  prop (body req2) "password" = JStr p2 ->
  (forall u, In u (users (db w2)) -> username u = n2 ->
             checkpw p2 (password_hash u) = false) ->
  fst (login req1 w1) = fst (login req2 w2) /\
  fst (login req1 w1) =
  Return (mk_response 401
            [("success", JBool false);
             ("message", JStr "Username and/or password is incorrect.")] []).
Proof.
  intros Hf1 Hf2 Hfree Hr Hn Hex Hp Hbad.
  rewrite (login_unknown_username req1 w1 Hf1 Hfree Hr).
  rewrite (login_wrong_password req2 w2 n2 p2 Hf2 Hn Hex Hp Hbad).
  split; reflexivity.
Qed.

End Login.
Section Registration.

Context {L : Libraries}.

Lemma first_fault (l : list bool) : hd false l = nth 0 l false.
Proof. destruct l; reflexivity. Qed.

Lemma second_fault (l : list bool) : hd false (tl l) = nth 1 l false.
Proof. destruct l as [| a [| b l]]; reflexivity. Qed.

Lemma third_fault (l : list bool) :
  hd false (tl (tl l)) = nth 2 l false.
Proof. destruct l as [| a [| b [| c l]]]; reflexivity. Qed.

Lemma new_user_is_referenced (d : database) (u : user_row) :
  existsb (fun v => id v =? id u) (users d ++ [u]) = true.
Proof.
  rewrite existsb_app. simpl. rewrite Z.eqb_refl.
  rewrite orb_true_r. reflexivity.
Qed.

Lemma free_name_is_unique d n :
  username_free d (Some n) ->
  existsb (fun u => (username u =? n)%string) (users d) = false.
Proof.
  intros Hfree. destruct (existsb _ (users d)) eqn:E; [| reflexivity].
  apply existsb_exists in E. destruct E as [u [Hu Hn]].
  apply String.eqb_eq in Hn. exfalso. apply (Hfree u Hu). rewrite Hn.
  reflexivity.
Qed.

Lemma unique_name_is_free d n :
  existsb (fun u => (username u =? n)%string) (users d) = false ->
  username_free d (Some n).
Proof.
  intros E u Hu Hn. injection Hn as ->.
  assert (H : existsb (fun v => (username v =? username u)%string) (users d)
              = true).
  { apply existsb_exists. exists u. split; [exact Hu | apply String.eqb_refl]. }
  rewrite H in E. discriminate.
Qed.

Lemma selected_is_taken d name y r :
  select_users_by_username d name = Return (y :: r) ->
  In y (users d) /\ name = Some (username y).
Proof.
  destruct name as [n |]; simpl; [| discriminate].
  destruct (has_nul n); [discriminate |].
  intros E. injection E as E.
  assert (H : In y (filter (fun u => (username u =? n)%string) (users d)))
    by (rewrite E; left; reflexivity).
  apply filter_In in H. destruct H as [H1 H2].
  apply String.eqb_eq in H2. subst n. auto.
Qed.

Lemma selected_none_is_free d name :
  select_users_by_username d name = Return [] ->
  username_free d name /\ readable name = true.
Proof.
  destruct name as [n |]; simpl.
  - destruct (has_nul n); [discriminate |].
    intros E. injection E as E. split; [| reflexivity].
    intros u Hu Hn. injection Hn as ->.
    assert (H : In u (filter (fun v => (username v =? username u)%string)
                             (users d))).
    { apply filter_In. split; [exact Hu | apply String.eqb_refl]. }
    rewrite E in H. destruct H.
  - intros _. split; [| reflexivity]. intros u _. discriminate.
Qed.

(** The user insert of a registration, case by case: it is refused before
    the sequence moves, or refused after, or it appends the row. *)
Lemma insert_user_cases d name hash :
  (exists m, insert_user d name (Some hash) = (Throw m, d) /\
             (readable name = false \/
              (exists n, name = Some n /\ takes_varchar255 n = false) \/
              takes_varchar255 hash = false)) \/
  (exists m, insert_user d name (Some hash) =
             (Throw m, mk_db (users d) (user_profiles d) (users_id_seq d + 1)) /\
             (name = None \/
              exists n t, name = Some n /\ assign_varchar255 n = Return t /\
                          ~ username_free d (Some (chars t)))) \/
  (exists n t h,
     name = Some n /\ assign_varchar255 n = Return t /\
     assign_varchar255 hash = Return h /\
     username_free d (Some (chars t)) /\
     let u := mk_user (users_id_seq d + 1) t h in
     insert_user d name (Some hash) =
     (Return (mk_result [u] 1), user_added d u)).
Proof.
  unfold insert_user.
  destruct name as [n |]; cbn [assign_nullable].
  - destruct (assign_varchar255 n) as [t | m] eqn:En.
    + destruct (assign_varchar255 hash) as [h | m] eqn:Eh.
      * destruct (existsb (fun u => (username u =? chars t)%string) (users d))
          eqn:Eu.
        -- right; left. eexists. split; [reflexivity |]. right.
           exists n, t. repeat split; try assumption.
           intros Hfree. rewrite (free_name_is_unique _ _ Hfree) in Eu.
           discriminate.
        -- right; right. exists n, t, h.
           repeat split; try assumption.
           apply unique_name_is_free. exact Eu.
      * left. eexists. split; [reflexivity |]. right; right.
        destruct (takes_varchar255 hash) eqn:T; [| reflexivity].
        destruct (assign_varchar255_takes _ T) as [h [E _]]. congruence.
    + left. eexists. split; [reflexivity |].
      destruct (takes_varchar255 n) eqn:T.
      * destruct (assign_varchar255_takes _ T) as [t [E _]]. congruence.
      * right; left. exists n. auto.
  - destruct (assign_varchar255 hash) as [h | m] eqn:Eh.
    + right; left. eexists. split; [reflexivity |]. left. reflexivity.
    + left. eexists. split; [reflexivity |]. right; right.
      destruct (takes_varchar255 hash) eqn:T; [| reflexivity].
      destruct (assign_varchar255_takes _ T) as [h [E _]]. congruence.
Qed.

(** Every way a registration can end, with what it answers and what it
    leaves in the tables: the 409 of a name that is taken; a 500 that
    appends no row, the sequence at most one step further; or the user row
    is appended, and then the profile row unless the pool rejects the third
    query, and the token unless no secret is set. *)
Lemma register_cases req w :
  exists resp w',
    register req w = (Return resp, w') /\
    ((resp = username_in_use /\ db w' = db w /\
      exists u, In u (users (db w)) /\
                pg_text (prop (body req) "username") = Some (username u)) \/
     (resp = server_error_response /\
      users (db w') = users (db w) /\
      user_profiles (db w') = user_profiles (db w) /\
      (users_id_seq (db w') = users_id_seq (db w) \/
       users_id_seq (db w') = users_id_seq (db w) + 1)) \/
     exists n p t h,
       pg_text (prop (body req) "username") = Some n /\
       prop (body req) "password" = JStr p /\
       username_free (db w) (Some n) /\
       assign_varchar255 n = Return t /\
       assign_varchar255 (hashpw p (genSalt 10 (entropy w))) = Return h /\
       username_free (db w) (Some (chars t)) /\
       nth 0 (faults w) false = false /\
       nth 1 (faults w) false = false /\
       let u := mk_user (users_id_seq (db w) + 1) t h in
       ((resp = server_error_response /\
         db w' = user_added (db w) u /\
         nth 2 (faults w) false = true) \/
        (resp = server_error_response /\
         db w' = user_and_profile_added (db w) u /\
         nth 2 (faults w) false = false /\
         secret_given (JWT_SECRET w) = None) \/
        (db w' = user_and_profile_added (db w) u /\
         nth 2 (faults w) false = false /\
         exists key,
           secret_given (JWT_SECRET w) = Some key /\
           resp = token_issued 201
                    (sign_at key (users_id_seq (db w) + 1) 1800 (now w))
                    (NODE_ENV w)))).
Proof.
  unfold register, try_catch, bind.
  destruct (hd false (faults w)) eqn:F1.
  { rewrite (pool_query_rejected _ _ _ F1). simpl.
    do 2 eexists. split; [reflexivity |]. right; left. simpl. auto. }
  rewrite (pool_query_sound _ _ _ F1). cbn [exec placeholder nth_error].
  destruct (select_users_by_username (db w)
              (pg_text (prop (body req) "username")))
    as [[| y r] | m] eqn:Esel; simpl.
  3:{ do 2 eexists. split; [reflexivity |]. right; left. simpl. auto. }
  2:{ do 2 eexists. split; [reflexivity |]. left.
      destruct (selected_is_taken _ _ _ _ Esel) as [Hy Hn].
      repeat split. exists y. auto. }
  destruct (selected_none_is_free _ _ Esel) as [Hfree _].
  unfold bcrypt_hash.
  destruct (prop (body req) "password") as [ | | b | z | p | o] eqn:Ep; simpl;
    try (do 2 eexists; split; [reflexivity |]; right; left; simpl; auto).
  unfold pool_query at 1. simpl.
  destruct (hd false (tl (faults w))) eqn:F2; simpl.
  { do 2 eexists. split; [reflexivity |]. right; left. simpl. auto. }
  rewrite first_fault in F1. rewrite second_fault in F2.
  destruct (insert_user_cases (db w) (pg_text (prop (body req) "username"))
              (hashpw p (genSalt 10 (entropy w))))
    as [[m [E _]] | [[m [E _]] | [n [t [h [Hn [Ht [Hh [Hfree' E]]]]]]]]];
    simpl in E; rewrite E; simpl.
  { do 2 eexists. split; [reflexivity |]. right; left. simpl. auto. }
  { do 2 eexists. split; [reflexivity |]. right; left. simpl. auto. }
  rewrite Hn in Hfree.
  unfold pool_query at 1. simpl. rewrite third_fault.
  destruct (nth 2 (faults w) false) eqn:F3; simpl.
  { do 2 eexists. split; [reflexivity |]. right; right. exists n, p, t, h.
    repeat split; try assumption. left. repeat split. }
  pose proof (new_user_is_referenced (db w)
                (mk_user (users_id_seq (db w) + 1) t h)) as Hfk.
  simpl in Hfk. rewrite Hfk. simpl.
  unfold jwt_sign. simpl.
  destruct (secret_given (JWT_SECRET w)) as [key |] eqn:Ekey; simpl.
  - do 2 eexists. split; [reflexivity |]. right; right. exists n, p, t, h.
    repeat split; try assumption. right; right. simpl.
    repeat split. exists key. split; reflexivity.
  - do 2 eexists. split; [reflexivity |]. right; right. exists n, p, t, h.
    repeat split; try assumption. right; left. repeat split.
Qed.






(** The name a registration stores: the first 255 characters of the name it
    was sent. *)
Lemma registered_name n t :
  assign_varchar255 n = Return t -> chars t = first_chars 255 n.
Proof. intros H. apply assign_varchar255_returns in H. tauto. Qed.


(** C5.  A registration under a name that a user row already carries, when
    the pool answers, is answered 409 with
    "Username is already in use. Please choose a different one." and no
    cookie.  The tables are as they were; the handler made one call, the
    lookup: no salt, no hash, no insert, no token. *)
Theorem register_conflict_creates_nothing (req : request) (w : world)
  (u : user_row) :
  hd false (faults w) = false ->
  In u (users (db w)) ->
  pg_text (prop (body req) "username") = Some (username u) ->
  exists w',
    register req w =
    (Return (mk_response 409
               [("success", JBool false);
                ("message",
                 JStr "Username is already in use. Please choose a different one.")]
               []), w') /\
    db w' = db w /\
    entropy w' = entropy w /\
    log w' = (log w ++ [pool_query_called SELECT_users_WHERE_username])%list.
Proof.
  intros Hf Hin Hn. unfold register, try_catch, bind.
  rewrite (pool_query_sound _ _ _ Hf). cbn [exec placeholder nth_error].
  rewrite Hn.
  destruct (select_of_taken_name (db w) u Hin) as [y [r [E _]]].
  rewrite E. simpl. eexists. repeat split.
Qed.

End Registration.
Section Cases.

Context {L : Libraries}.

(** Every way a login can end. *)
Lemma login_cases req w :
  exists resp w',
    login req w = (Return resp, w') /\
    db w' = db w /\
    (resp = incorrect_credentials \/
     resp = mk_response 500 [("error", JStr "Server error")] [] \/
     exists key u p,
       secret_given (JWT_SECRET w) = Some key /\
       In u (users (db w)) /\
       pg_text (prop (body req) "username") = Some (username u) /\
       prop (body req) "password" = JStr p /\
       checkpw p (password_hash u) = true /\
       resp = token_issued 200 (sign_at key (id u) 1800 (now w)) (NODE_ENV w)).
Proof.
  unfold login, try_catch, bind.
  destruct (hd false (faults w)) eqn:F1.
  { rewrite (pool_query_rejected _ _ _ F1). simpl.
    do 2 eexists. split; [reflexivity |]. split; [reflexivity |].
    right; left. reflexivity. }
  rewrite (pool_query_sound _ _ _ F1). cbn [exec placeholder nth_error].
  destruct (select_users_by_username (db w) (pg_text (prop (body req) "username")))
    as [[| y r] | m] eqn:Esel; simpl.
  3:{ do 2 eexists. split; [reflexivity |]. split; [reflexivity |].
      right; left. reflexivity. }
  { do 2 eexists. split; [reflexivity |]. split; [reflexivity |].
    left. reflexivity. }
  destruct (selected_is_taken _ _ _ _ Esel) as [Hy Hn].
  unfold bcrypt_compare.
  destruct (prop (body req) "password") as [ | | b | z | p | o] eqn:Ep; simpl;
    try (do 2 eexists; split; [reflexivity |]; split; [reflexivity |];
         right; left; reflexivity).
  destruct (checkpw p (password_hash y)) eqn:Ec; simpl.
  2:{ do 2 eexists. split; [reflexivity |]. split; [reflexivity |].
      left. reflexivity. }
  unfold jwt_sign. simpl.
  destruct (secret_given (JWT_SECRET w)) as [key |] eqn:Ekey; simpl.
  - do 2 eexists. split; [reflexivity |]. split; [reflexivity |].
    right; right. exists key, y, p. repeat split; assumption.
  - do 2 eexists. split; [reflexivity |]. split; [reflexivity |].
    right; left. reflexivity.
Qed.

(** Every way a delete can end, for the request the gate hands over. *)
Lemma delete_cases req w i :
  req_user_id req = Some i ->
  exists w',
    (delete req w = (Return error_has_occurred, w') /\
     hd false (faults w) = true /\ db w' = db w) \/
    (delete req w =
     (Return (if Nat.eqb (length (filter (fun u => id u =? i) (users (db w)))) 0
              then user_to_delete_not_found
              else mk_response 200
                     [("success", JBool true); ("message", JStr "User deleted.");
                      ("redirect", JStr "/")] []), w') /\
     hd false (faults w) = false /\
     users (db w') = filter (fun u => negb (id u =? i)) (users (db w)) /\
     user_profiles (db w') =
     filter (fun p => negb (user_id p =? i)) (user_profiles (db w)) /\
     users_id_seq (db w') = users_id_seq (db w)).
Proof.
  intros Hi. unfold delete, try_catch, bind, user_id_of. rewrite Hi.
  destruct (hd false (faults w)) eqn:F1.
  - rewrite (pool_query_rejected _ _ _ F1). simpl.
    eexists. left. repeat split.
  - rewrite (pool_query_sound _ _ _ F1). simpl.
    eexists. right.
    destruct (length (filter (fun u => id u =? i) (users (db w)))); simpl;
      repeat split.
Qed.

(** Every way a view can end, for the request the gate hands over. *)
Lemma view_cases req w i :
  req_user_id req = Some i ->
  exists w',
    db w' = db w /\
    ((view req w = (Return error_has_occurred, w') /\
      hd false (faults w) = true) \/
     (hd false (faults w) = false /\
      view req w =
      (Return match select_profile_view (db w) (Some i) with
              | [] => profile_not_found
              | r :: _ => profile_found r
              end, w'))).
Proof.
  intros Hi. unfold view, try_catch, bind, user_id_of, pool_query_view.
  rewrite Hi. simpl.
  destruct (hd false (faults w)) eqn:F1; simpl.
  - eexists. split; [| left; split; reflexivity]. reflexivity.
  - destruct (select_profile_view (db w) (Some i)) as [| r rs] eqn:E; simpl;
      simpl in E; rewrite E; simpl;
      (eexists; split; [| right; split; reflexivity]; reflexivity).
Qed.

End Cases.

Section Tokens.

Context {L : Libraries}.

(** What is asked of the serialisation of tokens: a token that was written
    reads back, and the empty text is no token. *)
Hypothesis jwt_decode_encode : forall j, jwt_decode (jwt_encode j) = Some j.
Hypothesis jwt_decode_empty : jwt_decode EmptyString = None.

Lemma issued_token_is_truthy key i ttl t0 :
  truthy (JStr (sign_at key i ttl t0)) = true.
Proof.
  simpl. destruct (sign_at key i ttl t0) as [| a s] eqn:E; [| reflexivity].
  unfold sign_at in E.
  pose proof (jwt_decode_encode
                (mk_jwt (mk_payload i t0 (Some (t0 + ttl)))
                        (HS256 key (mk_payload i t0 (Some (t0 + ttl)))))) as H.
  rewrite E, jwt_decode_empty in H. discriminate.
Qed.

(** Verification of an issued token, step by step. *)
Lemma verify_issued key i ttl t0 secret t :
  let p := mk_payload i t0 (Some (t0 + ttl)) in
  verify_at (JStr (sign_at key i ttl t0)) secret t =
  match secret_given secret with
  | None => inl (JsonWebTokenError "secret or public key must be provided")
  | Some k =>
      if (HS256 key p =? HS256 k p)%string then
        if t0 + ttl <=? t then inl TokenExpiredError else inr p
      else inl (JsonWebTokenError "invalid signature")
  end.
Proof.
  intros p. unfold verify_at.
  rewrite issued_token_is_truthy. simpl negb. cbv iota.
  unfold sign_at. rewrite jwt_decode_encode. simpl.
  destruct (secret_given secret) as [k |]; [| reflexivity].
  fold p. destruct (HS256 key p =? HS256 k p)%string; reflexivity.
Qed.

(** Every cookie that register or login sets carries a token signed under
    the secret of the process, at the time of the request, for the id of the
    user row that bears the name of the request, as the column keeps it. *)
Lemma issued_by_the_handlers req w resp w' name tok o :
  register req w = (Return resp, w') \/ login req w = (Return resp, w') ->
  In (res_cookie name tok o) (set_cookie resp) ->
  exists key u,
    secret_given (JWT_SECRET w) = Some key /\
    In u (users (db w')) /\
    (exists n, pg_text (prop (body req) "username") = Some n /\
               username u = first_chars 255 n) /\
    tok = sign_at key (id u) 1800 (now w).
Proof.
  intros [E | E] Hin.
  - destruct (register_cases req w) as [r [v [E' H]]].
    rewrite E in E'. injection E' as <- <-.
    destruct H as [[-> _] | [[-> _] | [n [p [t [h H]]]]]];
      try (destruct Hin).
    destruct H as [Hn [_ [_ [Ht [_ [_ [_ [_ H]]]]]]]]. simpl in H.
    destruct H as [[-> _] | [[-> _] | [Hdb [_ [key [Hkey Hr]]]]]];
      try (destruct Hin).
    rewrite Hr in Hin. simpl in Hin. destruct Hin as [Hin | []].
    injection Hin as _ <- _.
    exists key, (mk_user (users_id_seq (db w) + 1) t h).
    rewrite Hdb. simpl. repeat split; try assumption.
    + apply in_or_app. right. left. reflexivity.
    + exists n. split; [exact Hn | apply registered_name; exact Ht].
  - destruct (login_cases req w) as [r [v [E' [Hdb H]]]].
    rewrite E in E'. injection E' as <- <-.
    destruct H as [-> | [-> | [key [u [p [Hkey [Hu [Hn [_ [_ Hr]]]]]]]]]];
      try (destruct Hin).
    rewrite Hr in Hin. simpl in Hin. destruct Hin as [Hin | []].
    injection Hin as _ <- _.
    exists key, u. rewrite Hdb. repeat split; try assumption.
    exists (username u). split; [exact Hn |].
    symmetry. apply first_chars_fits. apply stored_text_fits.
Qed.

(** C3.  Every token that registration or login puts in a cookie embeds the
    id of the user row that bears the name of the request, as the column
    keeps it (its first 255 characters), the time of issue and the expiry,
    the time of issue plus 1800 seconds.  Whatever the secret and the clock at verification,
    the token verifies exactly when its signature is the one computed under
    that secret and the clock is strictly before the expiry; under the
    secret of the process it verifies at every time before the expiry, and
    a verification that succeeds yields the id the token was issued for. *)
Theorem issued_token_verifies_until_expiry (req : request) (w w' : world)
  (resp : response) (name tok : string) (o : cookie_options) :
  register req w = (Return resp, w') \/ login req w = (Return resp, w') ->
  In (res_cookie name tok o) (set_cookie resp) ->
  exists key u,
    secret_given (JWT_SECRET w) = Some key /\
    In u (users (db w')) /\
    (exists n, pg_text (prop (body req) "username") = Some n /\
               username u = first_chars 255 n) /\
    let p := mk_payload (id u) (now w) (Some (now w + 1800)) in
    jwt_decode tok = Some (mk_jwt p (HS256 key p)) /\
    (forall secret t,
       (exists d, verify_at (JStr tok) secret t = inr d) <->
       ((exists k, secret_given secret = Some k /\ HS256 key p = HS256 k p) /\
        t < now w + 1800)) /\
    (forall t, t < now w + 1800 ->
               verify_at (JStr tok) (JWT_SECRET w) t = inr p) /\
    (forall secret t d,
       verify_at (JStr tok) secret t = inr d -> claim_id d = id u).
Proof.
  intros E Hin.
  destruct (issued_by_the_handlers req w resp w' name tok o E Hin)
    as [key [u [Hkey [Hu [Hn Htok]]]]].
  exists key, u. repeat (split; [assumption |]).
  intros p. subst tok. split; [apply jwt_decode_encode |].
  assert (Hiff : forall secret t d,
             verify_at (JStr (sign_at key (id u) 1800 (now w))) secret t = inr d
             <-> ((exists k, secret_given secret = Some k /\
                             HS256 key p = HS256 k p) /\
                  t < now w + 1800 /\ d = p)).
  { intros secret t d. rewrite verify_issued. fold p.
    destruct (secret_given secret) as [k |].
    - destruct (HS256 key p =? HS256 k p)%string eqn:Es.
      + apply String.eqb_eq in Es.
        destruct (now w + 1800 <=? t) eqn:Et.
        * apply Z.leb_le in Et. split; [discriminate |].
          intros [_ [Hlt _]]. lia.
        * apply Z.leb_gt in Et. split.
          -- intros H. injection H as <-. repeat split; eauto.
          -- intros [_ [_ ->]]. reflexivity.
      + apply String.eqb_neq in Es. split; [discriminate |].
        intros [[k' [Hk Hs]] _]. injection Hk as <-. contradiction.
    - split; [discriminate |]. intros [[k' [Hk _]] _]. discriminate. }
  split; [| split].
  - intros secret t. split.
    + intros [d Hd]. apply Hiff in Hd. destruct Hd as [H1 [H2 _]]. auto.
    + intros [H1 H2]. exists p. apply Hiff. auto.
  - intros t Ht. apply Hiff. repeat split; [| exact Ht].
    exists key. split; [exact Hkey | reflexivity].
  - intros secret t d Hd. apply Hiff in Hd. destruct Hd as [_ [_ ->]].
    reflexivity.
Qed.

End Tokens.

Section Logout.

Context {L : Libraries}.

(** C6, as amended.  Logout answers 200 [{success: true}] whatever the
    request, cookie or no cookie, and asks the client to clear [auth_token].
    It touches nothing: the tables, the log of calls to the store, bcrypt and
    the token codec, all of the world is as before, so that repeating it
    changes nothing.  The clear instruction names the cookie as issuance
    does and agrees with issuance on httpOnly and secure; it also sets
    sameSite to "strict", which issuance leaves unset, and carries no
    maxAge. *)
Theorem logout_clears_the_cookie (req req' : request) (w : world) :
  logout req w =
  (Return (mk_response 200 [("success", JBool true)]
             [res_clearCookie "auth_token" (logout_options (NODE_ENV w))]),
   w) /\
  logout req' w = logout req w /\
  logout req (snd (logout req w)) = logout req w /\
  httpOnly (logout_options (NODE_ENV w)) =
  httpOnly (issuance_options (NODE_ENV w)) /\
  secure (logout_options (NODE_ENV w)) =
  secure (issuance_options (NODE_ENV w)) /\
  sameSite (logout_options (NODE_ENV w)) = Some "strict" /\
  sameSite (issuance_options (NODE_ENV w)) = None /\
  maxAge (logout_options (NODE_ENV w)) = None /\
  maxAge (issuance_options (NODE_ENV w)) = Some 1800000.
Proof.
  repeat split.
Qed.

End Logout.

Section Update.

Context {L : Libraries}.

Lemma Forall2_map_self {A} (R : A -> A -> Prop) (f : A -> A) (l : list A) :
  (forall x, R x (f x)) -> Forall2 R l (map f l).
Proof.
  intros H. induction l as [| a l IH]; simpl; constructor; auto.
Qed.

Lemma Forall2_same {A} (R : A -> A -> Prop) (l : list A) :
  (forall x, R x x) -> Forall2 R l l.
Proof.
  intros H. induction l as [| a l IH]; constructor; auto.
Qed.

Lemma assignments_nil displayName bio :
  assignments displayName bio = [] <->
  truthy displayName = false /\ truthy bio = false.
Proof.
  unfold assignments.
  destruct (truthy displayName), (truthy bio); simpl; split;
    try discriminate; try (intros [? ?]; discriminate); auto.
Qed.

Lemma append_is_not_empty (a b : string) :
  b <> EmptyString -> (a ++ b)%string <> EmptyString.
Proof. destruct a; simpl; [auto | discriminate]. Qed.

Lemma digits_are_not_empty (n : Z) : digits n <> EmptyString.
Proof.
  unfold digits, NilZero.string_of_int.
  destruct (Z.to_int n) as [d | d]; [| discriminate].
  unfold NilZero.string_of_uint. destruct d; discriminate.
Qed.

Lemma Number_toString_is_not_empty (n : Z) :
  Number_toString n <> EmptyString.
Proof.
  unfold Number_toString.
  destruct (Z.abs n <? 2 ^ 53); [apply digits_are_not_empty |].
  destruct (2 ^ 1024 <=? Number_of (Z.abs n));
    [apply append_is_not_empty; discriminate |].
  set (D := digits (shortest (Number_of (Z.abs n))
                      (String.length (digits (Number_of (Z.abs n))) - 1))).
  assert (HD : D <> EmptyString) by apply digits_are_not_empty.
  destruct (String.length D <=? 21)%nat;
    [apply append_is_not_empty; exact HD |].
  destruct (strip_zeros D) as [| c [| c' r]];
    apply append_is_not_empty; try discriminate. exact HD.
Qed.

(** The text sent for a truthy value is never NULL and never empty. *)
Lemma truthy_text (v : jsval) :
  truthy v = true -> exists s, pg_text v = Some s /\ s <> EmptyString.
Proof.
  destruct v as [ | | b | n | s | o]; simpl; try discriminate.
  - intros ->. eexists. split; [reflexivity | discriminate].
  - intros _. eexists. split; [reflexivity |].
    apply Number_toString_is_not_empty.
  - intros H. exists s. split; [reflexivity |].
    intros ->. discriminate.
  - intros _. eexists. split; [reflexivity | discriminate].
Qed.

(** The assignments of an update once the columns took them: one for each
    truthy field, with the first 255 characters of its text. *)
Lemma assign_columns_of_fields dn b l' :
  assign_columns (assignments dn b) = Return l' ->
  exists x y,
    l' = ((if truthy dn then [(col_display_name, x)] else []) ++
          (if truthy b then [(col_bio, y)] else []))%list /\
    (truthy dn = true -> option_map chars x = kept255 (pg_text dn)) /\
    (truthy b = true -> option_map chars y = kept255 (pg_text b)).
Proof.
  unfold assignments.
  assert (K : forall v t, assign_nullable (pg_text v) = Return t ->
                          option_map chars t = kept255 (pg_text v)).
  { intros v t. destruct (pg_text v) as [s |]; simpl.
    - destruct (assign_varchar255 s) as [t' | m] eqn:E; [| discriminate].
      intros H. injection H as <-. simpl. f_equal.
      apply assign_varchar255_returns in E. tauto.
    - intros H. injection H as <-. reflexivity. }
  destruct (truthy dn), (truthy b); simpl.
  - destruct (assign_nullable (pg_text dn)) as [x | m] eqn:Ex; [| discriminate].
    destruct (assign_nullable (pg_text b)) as [y | m] eqn:Ey; [| discriminate].
    intros H. injection H as <-. exists x, y. auto.
  - destruct (assign_nullable (pg_text dn)) as [x | m] eqn:Ex; [| discriminate].
    intros H. injection H as <-. exists x, None. repeat split; auto.
    discriminate.
  - destruct (assign_nullable (pg_text b)) as [y | m] eqn:Ey; [| discriminate].
    intros H. injection H as <-. exists None, y. repeat split; auto.
    discriminate.
  - intros H. injection H as <-. exists None, None.
    repeat split; discriminate.
Qed.

(** The columns take the assignments exactly when each of them fits. *)
Lemma assign_columns_fits l :
  forallb assignment_fits l = true ->
  exists l', assign_columns l = Return l'.
Proof.
  induction l as [| [c o] l IH]; simpl; [eauto |].
  intros H. apply andb_true_iff in H. destruct H as [H1 H2].
  destruct (IH H2) as [r E]. rewrite E.
  destruct o as [s |]; simpl; [| eauto].
  destruct (assign_varchar255_takes s H1) as [t [Et _]].
  rewrite Et. eauto.
Qed.

Lemma assign_columns_returns l l' :
  assign_columns l = Return l' -> forallb assignment_fits l = true.
Proof.
  revert l'. induction l as [| [c o] l IH]; simpl; [reflexivity |].
  intros l'.
  destruct (assign_nullable o) as [t | m] eqn:Eo; [| discriminate].
  destruct (assign_columns l) as [r | m] eqn:El; [| discriminate].
  intros _. rewrite (IH r eq_refl). rewrite andb_true_r.
  unfold assignment_fits. simpl.
  destruct o as [s |]; [| reflexivity]. simpl in Eo.
  destruct (assign_varchar255 s) as [t' | m] eqn:Es; [| discriminate].
  apply assign_varchar255_returns in Es. tauto.
Qed.

Lemma assign_columns_refuses l :
  forallb assignment_fits l = false ->
  exists m, assign_columns l = Throw m.
Proof.
  intros H. destruct (assign_columns l) as [l' | m] eqn:E; [| eauto].
  rewrite (assign_columns_returns _ _ E) in H. discriminate.
Qed.

(** The statement the update handler builds and its values array line
    up. *)
Lemma update_placeholders displayName b uid :
  bind_assignments (snd (fst (update_clauses displayName b)) ++ [uid])
                   (fst (fst (update_clauses displayName b)))
    = Return (assignments displayName b) /\
  placeholder (snd (fst (update_clauses displayName b)) ++ [uid])
              (snd (update_clauses displayName b))
    = Return uid /\
  (assignments displayName b = [] <->
   fst (fst (update_clauses displayName b)) = []).
Proof.
  unfold update_clauses, assignments.
  destruct (truthy displayName) eqn:Td, (truthy b) eqn:Tb; simpl;
    rewrite ?Td, ?Tb; repeat split; try discriminate.
Qed.

(** Every way an update can end, for the request the gate hands over.  The
    statement is thrown back, and nothing is written, when the pool rejects
    the query, when no field is truthy, or when the column does not take a
    text; otherwise the assignments are applied to the rows of the user and
    the answer goes by the number of those rows. *)
Lemma update_cases req w i :
  req_user_id req = Some i ->
  let l := assignments (prop (body req) "displayName") (prop (body req) "bio") in
  exists w',
    ((hd false (faults w) = true \/ l = [] \/
      forallb assignment_fits l = false) /\
     update req w = (Return error_has_occurred, w') /\
     db w' = db w) \/
    (hd false (faults w) = false /\ l <> [] /\
     forallb assignment_fits l = true /\
     exists l',
       assign_columns l = Return l' /\
       update req w =
       (Return (if Nat.eqb (length (filter (fun p => user_id p =? i)
                                           (user_profiles (db w)))) 0
                then could_not_be_updated else profile_updated), w') /\
       users (db w') = users (db w) /\
       users_id_seq (db w') = users_id_seq (db w) /\
       user_profiles (db w') = map (update_row i l') (user_profiles (db w))).
Proof.
  intros Hi l.
  pose proof (update_placeholders
                (prop (body req) "displayName") (prop (body req) "bio")
                (JNum i)) as [Hb [Hw Hne]].
  fold l in Hb, Hne.
  unfold update, try_catch, bind, user_id_of. rewrite Hi.
  destruct (update_clauses (prop (body req) "displayName")
                           (prop (body req) "bio"))
    as [[setClause values] element] eqn:Ec.
  cbn [fst snd] in Hb, Hw, Hne.
  destruct (hd false (faults w)) eqn:F1.
  { rewrite (pool_query_rejected _ _ _ F1). simpl.
    eexists. left. repeat split; auto. }
  rewrite (pool_query_sound _ _ _ F1). cbn [exec].
  unfold update_profiles.
  destruct setClause as [| a setClause].
  { simpl. eexists. left. repeat split. right; left.
    apply Hne. reflexivity. }
  assert (Hl : l <> []).
  { intros E. apply Hne in E. discriminate. }
  rewrite Hb, Hw. cbn [pg_int].
  destruct (forallb assignment_fits l) eqn:Efit.
  - destruct (assign_columns_fits l Efit) as [l' El]. rewrite El.
    eexists. right. repeat split; try assumption.
    exists l'. split; [reflexivity |].
    destruct (length (filter (fun p => user_id p =? i) (user_profiles (db w))))
      eqn:Ecount; simpl; repeat split.
  - destruct (assign_columns_refuses l Efit) as [m El]. rewrite El.
    simpl. eexists. left. repeat split. auto.
Qed.


(** C7, where the code departs from it.  An admitted update whose body has
    no truthy [displayName] and no truthy [bio] sends an UPDATE with an empty
    SET list; the statement is thrown back and the handler's catch answers
    500 "An error has occurred. Please try again later.", not the 300 of the
    branch for zero rows.  Nothing is written. *)
Theorem update_without_fields_is_500 (req : request) (w : world)
  (decoded : jwt_payload) :
  verify_at (prop (cookies req) "auth_token") (JWT_SECRET w) (now w)
    = inr decoded ->
  truthy (prop (body req) "displayName") = false ->
  truthy (prop (body req) "bio") = false ->
  exists w',
    PUT_profile_update req w =
    (Return (mk_response 500
               [("success", JBool false);
                ("message",
                 JStr "An error has occurred. Please try again later.")] []),
     w') /\
    db w' = db w /\
    log w' = (log w ++ [jwt_verify_called;
                        pool_query_called (UPDATE_user_profiles [] 1)])%list /\
    fst (PUT_profile_update req w) <> Return could_not_be_updated.
Proof.
  intros Hv Hd Hb. unfold PUT_profile_update.
  rewrite (gate_passes _ _ _ _ Hv).
  unfold update, try_catch, bind, update_clauses. simpl.
  rewrite Hd, Hb.
  unfold pool_query. simpl.
  destruct (hd false (faults w)); simpl;
    (eexists; split; [reflexivity |]; simpl; split; [reflexivity |];
     split; [rewrite <- app_assoc; reflexivity | discriminate]).
Qed.

Lemma lookup_without_same (o : object) (k : string) :
  lookup (without o k) k = None.
Proof.
  induction o as [| [k' v] o IH]; simpl; [reflexivity |].
  destruct (k' =? k)%string eqn:E; simpl; [exact IH |].
  rewrite E. exact IH.
Qed.

Lemma lookup_without_other (o : object) (k k' : string) :
  k' <> k -> lookup (without o k) k' = lookup o k'.
Proof.
  intros Hne. induction o as [| [k0 v] o IH]; simpl; [reflexivity |].
  destruct (k0 =? k)%string eqn:E; simpl.
  - apply String.eqb_eq in E. subst k0.
    destruct (k =? k')%string eqn:E'; [| exact IH].
    apply String.eqb_eq in E'. subst k'. contradiction.
  - rewrite IH. reflexivity.
Qed.

Lemma update_reads req1 req2 w :
  req_user_id req1 = req_user_id req2 ->
  update_clauses (prop (body req1) "displayName") (prop (body req1) "bio") =
  update_clauses (prop (body req2) "displayName") (prop (body req2) "bio") ->
  update req1 w = update req2 w.
Proof.
  intros H1 H2. unfold update, user_id_of. rewrite H1, H2. reflexivity.
Qed.

Lemma route_update_reads req b w :
  update_clauses (prop b "displayName") (prop b "bio") =
  update_clauses (prop (body req) "displayName") (prop (body req) "bio") ->
  PUT_profile_update (with_body req b) w = PUT_profile_update req w.
Proof.
  intros H. unfold PUT_profile_update, authenticateJWT. simpl.
  destruct (truthy (prop (cookies req) "auth_token")); simpl; [| reflexivity].
  unfold bind, process_env_JWT_SECRET, jwt_verify. simpl.
  destruct (verify_at (prop (cookies req) "auth_token") (JWT_SECRET w) (now w));
    [reflexivity |].
  apply update_reads; [reflexivity | exact H].
Qed.

Lemma kept (t : option string) : kept_or_nonempty t t.
Proof. left. reflexivity. Qed.

Lemma assign_keeps_user_id l p :
  user_id (fold_left assign l p) = user_id p.
Proof.
  revert p. induction l as [| a l IH]; intros p; simpl; [reflexivity |].
  rewrite IH. unfold assign. destruct (fst a); reflexivity.
Qed.

Lemma update_row_keeps_user_id i l p :
  user_id (update_row i l p) = user_id p.
Proof.
  unfold update_row. destruct (user_id p =? i); [| reflexivity].
  apply assign_keeps_user_id.
Qed.

Lemma update_row_of_others i l p :
  user_id p <> i -> update_row i l p = p.
Proof.
  intros H. unfold update_row.
  destruct (user_id p =? i) eqn:E; [| reflexivity].
  apply Z.eqb_eq in E. contradiction.
Qed.

(** What an update leaves in the two columns of a row of the user: for a
    truthy field the first 255 characters of its text, for another what was
    there. *)
Lemma written_fields dn b l' i p :
  assign_columns (assignments dn b) = Return l' ->
  user_id p = i ->
  display_name (update_row i l' p) =
  (if truthy dn then kept255 (pg_text dn) else display_name p) /\
  bio (update_row i l' p) =
  (if truthy b then kept255 (pg_text b) else bio p).
Proof.
  intros H Hi.
  destruct (assign_columns_of_fields _ _ _ H) as [x [y [-> [Hx Hy]]]].
  unfold update_row. rewrite (proj2 (Z.eqb_eq _ _) Hi).
  destruct (truthy dn), (truthy b); simpl; unfold display_name, bio; simpl;
    split; auto.
Qed.

Lemma kept255_of_truthy v :
  truthy v = true ->
  exists s, kept255 (pg_text v) = Some s /\ s <> EmptyString.
Proof.
  intros H. destruct (truthy_text v H) as [s [E Hs]]. rewrite E. simpl.
  eexists. split; [reflexivity |]. apply first_chars_not_empty. exact Hs.
Qed.

Lemma update_row_texts dn b l' i p :
  assign_columns (assignments dn b) = Return l' ->
  kept_or_nonempty (display_name p) (display_name (update_row i l' p)) /\
  kept_or_nonempty (bio p) (bio (update_row i l' p)).
Proof.
  intros H. destruct (Z.eq_dec (user_id p) i) as [Hi | Hi].
  - destruct (written_fields dn b l' i p H Hi) as [D B]. rewrite D, B.
    destruct (truthy dn) eqn:Td, (truthy b) eqn:Tb; split;
      try apply kept; right; apply kept255_of_truthy; assumption.
  - rewrite (update_row_of_others _ _ _ Hi). split; apply kept.
Qed.

(** What an update does to the tables, for every request to the route. *)
Lemma route_update_effect req w :
  db (snd (PUT_profile_update req w)) = db w \/
  exists decoded l',
    verify_at (prop (cookies req) "auth_token") (JWT_SECRET w) (now w)
      = inr decoded /\
    assign_columns (assignments (prop (body req) "displayName")
                                (prop (body req) "bio")) = Return l' /\
    users (db (snd (PUT_profile_update req w))) = users (db w) /\
    users_id_seq (db (snd (PUT_profile_update req w))) = users_id_seq (db w) /\
    user_profiles (db (snd (PUT_profile_update req w))) =
    map (update_row (claim_id decoded) l') (user_profiles (db w)).
Proof.
  unfold PUT_profile_update.
  destruct (gate_trichotomy req update w) as [[r E] | [[r E] | [decoded [Hv E]]]];
    rewrite E; simpl; auto.
  destruct (update_cases (with_user_id req (claim_id decoded))
              (logged w jwt_verify_called) (claim_id decoded) eq_refl)
    as [w' [[_ [E' Hdb]] | [_ [_ [_ [l' [El [E' [Hu [Hs Hp]]]]]]]]]];
    rewrite E'; simpl in *.
  - left. exact Hdb.
  - right. exists decoded, l'. auto.
Qed.

(** C9.  In PUT /profile/update a falsy field counts as a missing one.  When
    [displayName] is the empty string, or any other falsy value, the SET
    list has no assignment to display_name and the route behaves, response
    and world alike, as on the same request without the property; likewise
    for [bio].  So, whatever the request, each row's display_name and bio
    are afterwards what they were or a text that is not empty. *)
Theorem update_treats_falsy_as_absent (req : request) (w : world) :
  (truthy (prop (body req) "displayName") = false ->
   ~ In col_display_name
        (map fst (fst (fst (update_clauses (prop (body req) "displayName")
                                           (prop (body req) "bio"))))) /\
   PUT_profile_update req w =
   PUT_profile_update (with_body req (without (body req) "displayName")) w) /\
  (truthy (prop (body req) "bio") = false ->
   ~ In col_bio
        (map fst (fst (fst (update_clauses (prop (body req) "displayName")
                                           (prop (body req) "bio"))))) /\
   PUT_profile_update req w =
   PUT_profile_update (with_body req (without (body req) "bio")) w) /\
  Forall2 (fun p p' =>
             kept_or_nonempty (display_name p) (display_name p') /\
             kept_or_nonempty (bio p) (bio p'))
          (user_profiles (db w))
          (user_profiles (db (snd (PUT_profile_update req w)))).
Proof.
  split; [| split].
  - intros Hd. split.
    + unfold update_clauses. rewrite Hd.
      destruct (truthy (prop (body req) "bio")); simpl; intuition discriminate.
    + symmetry. apply route_update_reads. unfold prop.
      rewrite lookup_without_same.
      rewrite (lookup_without_other _ "displayName" "bio") by discriminate.
      fold (prop (body req) "bio"). fold (prop (body req) "displayName").
      unfold update_clauses. rewrite Hd. reflexivity.
  - intros Hb. split.
    + unfold update_clauses. rewrite Hb.
      destruct (truthy (prop (body req) "displayName")); simpl;
        intuition discriminate.
    + symmetry. apply route_update_reads. unfold prop.
      rewrite lookup_without_same.
      rewrite (lookup_without_other _ "bio" "displayName") by discriminate.
      fold (prop (body req) "bio"). fold (prop (body req) "displayName").
      unfold update_clauses. rewrite Hb.
      destruct (truthy (prop (body req) "displayName")); reflexivity.
  - destruct (route_update_effect req w) as [E | [decoded [l' [_ [El [_ [_ E]]]]]]];
      rewrite E.
    + apply Forall2_same. intros p. split; apply kept.
    + apply Forall2_map_self. intros p.
      apply (update_row_texts (prop (body req) "displayName")
               (prop (body req) "bio") l' (claim_id decoded) p El).
Qed.

(** C10.  PUT /profile/update writes nothing but display_name and bio of the
    profile rows of the caller.  For every request the users table and its
    sequence are as before and the profile rows are the same rows with the
    same user_id, in the same order; when the gate admits the request, a
    profile row whose user_id is not the id the gate attached is unchanged
    in every column. *)
Theorem update_touches_only_own_profile (req : request) (w : world) :
  users (db (snd (PUT_profile_update req w))) = users (db w) /\
  users_id_seq (db (snd (PUT_profile_update req w))) = users_id_seq (db w) /\
  Forall2 (fun p p' => user_id p' = user_id p)
          (user_profiles (db w))
          (user_profiles (db (snd (PUT_profile_update req w)))) /\
  (forall decoded,
     verify_at (prop (cookies req) "auth_token") (JWT_SECRET w) (now w)
       = inr decoded ->
     Forall2 (fun p p' => user_id p <> claim_id decoded -> p' = p)
             (user_profiles (db w))
             (user_profiles (db (snd (PUT_profile_update req w))))).
Proof.
  destruct (route_update_effect req w)
    as [E | [decoded [l' [Hv [_ [Hu [Hs Hp]]]]]]].
  - rewrite E. repeat split.
    + apply Forall2_same. reflexivity.
    + intros decoded _. apply Forall2_same. reflexivity.
  - rewrite Hu, Hs, Hp. repeat split.
    + apply Forall2_map_self. intros p. apply update_row_keeps_user_id.
    + intros decoded' Hv'. rewrite Hv in Hv'. injection Hv' as <-.
      apply Forall2_map_self. intros p. apply update_row_of_others.
Qed.

End Update.

(** * The concrete instance meets what is asked of the libraries *)

Section DemoCodec.

Import Demo.

Lemma read_ones_ones (n : nat) (r : string) :
  read_ones (ones n ++ String "." r) = (n, String "." r).
Proof.
  induction n as [| n IH]; simpl; [reflexivity |].
  rewrite IH. reflexivity.
Qed.

Lemma read_write_Z (z : Z) (r : string) :
  read_Z (write_Z z ++ String "." r) = Some (z, String "." r).
Proof.
  unfold write_Z, read_Z. simpl. rewrite read_ones_ones.
  rewrite Zabs2Nat.id_abs.
  destruct (z <? 0) eqn:E; simpl.
  - apply Z.ltb_lt in E. f_equal. f_equal. lia.
  - apply Z.ltb_ge in E. f_equal. f_equal. lia.
Qed.

Lemma read_write_exp (e : option Z) (r : string) :
  read_exp (write_exp e ++ String "." r) = Some (e, String "." r).
Proof.
  destruct e as [z |]; simpl; [| reflexivity].
  pose proof (read_write_Z z r) as H. unfold write_Z in *. simpl in *.
  destruct (z <? 0); simpl in *; rewrite H; reflexivity.
Qed.

Lemma demo_decode_encode (j : jwt) : decode (encode j) = Some j.
Proof.
  destruct j as [[i t e] sig]. unfold encode, decode.
  cbn [payload claim_id iat exp signature append].
  rewrite read_write_Z. cbn [dot Ascii.eqb Bool.eqb].
  rewrite read_write_Z. cbn [dot Ascii.eqb Bool.eqb].
  rewrite read_write_exp. cbn [dot Ascii.eqb Bool.eqb]. reflexivity.
Qed.

Lemma demo_decode_empty : decode EmptyString = None.
Proof. reflexivity. Qed.

End DemoCodec.

(** * The statements at concrete requests *)

Section Instances.

Import Demo.

(** The gate of C1 on a request without cookie, on one with a cookie that
    is no token, and on one with the token of user 1. *)
Lemma authenticateJWT_decides_witness :
  authenticateJWT (with_cookie JUndefined []) validate world0 =
  (Return no_token_provided, world0) /\
  authenticateJWT (with_cookie (JStr "x") []) validate world0 =
  (Return invalid_token, logged world0 jwt_verify_called) /\
  GET_auth_validate (with_cookie (JStr token1) []) world0 =
  (Return (mk_response 200 [("tokenIsValid", JBool true)] []),
   logged world0 jwt_verify_called).
Proof.
  split; [| split].
  - apply (authenticateJWT_decides (with_cookie JUndefined []) validate world0).
    reflexivity.
  - destruct (authenticateJWT_decides (with_cookie (JStr "x") []) validate
                world0) as [_ [H _]].
    apply (H eq_refl (JsonWebTokenError "jwt malformed")). reflexivity.
  - destruct (authenticateJWT_decides (with_cookie (JStr token1) []) validate
                world0) as [_ [_ H]].
    apply (H (mk_payload 1 5 (Some 1805))). vm_compute. reflexivity.
Defined.

(** C1 as it was stated fails on a cookie that is present and empty: its
    verification fails, yet the answer is the 401 of the missing token. *)
Lemma empty_cookie_is_answered_401 :
  ~ (forall (L : Libraries) (req : request) (w : world) (token : jsval)
            (e : verify_error),
       lookup (cookies req) "auth_token" = Some token ->
       verify_at token (JWT_SECRET w) (now w) = inl e ->
       fst (GET_auth_validate req w) = Return invalid_token).
Proof.
  intros H.
  specialize (H libraries (with_cookie (JStr EmptyString) []) world0
                (JStr EmptyString)
                (JsonWebTokenError "jwt must be provided") eq_refl eq_refl).
  discriminate H.
Qed.

(** C2 on the store of alice: an unknown name and a wrong password. *)
Lemma login_failures_are_identical_witness :
  fst (login (credentials "bob" "pw1") world0) =
  fst (login (credentials "alice" "pw2") world0) /\
  fst (login (credentials "bob" "pw1") world0) = Return incorrect_credentials.
Proof.
  apply (login_failures_are_identical world0 world0 (credentials "bob" "pw1")
           (credentials "alice" "pw2") "alice" "pw2").
  - reflexivity.
  - reflexivity.
  - intros u [<- | []]. discriminate.
  - reflexivity.
  - reflexivity.
  - exists alice. split; [left |]; reflexivity.
  - reflexivity.
  - intros u [<- | []] _. reflexivity.
Defined.

(** C2 as it was stated fails on a password that is not a string: without
    a password, the login under the name of alice is answered 500, the login
    under a name that nobody bears 401.  The two answers tell the client
    that alice has an account. *)
Lemma login_without_password_tells_names_apart :
  ~ (forall (L : Libraries) (w : world) (req1 req2 : request),
       hd false (faults w) = false ->
       username_free (db w) (pg_text (prop (body req1) "username")) ->
       (exists u,
          In u (users (db w)) /\
          pg_text (prop (body req2) "username") = Some (username u) /\
          forall p, prop (body req2) "password" = JStr p ->
                    checkpw p (password_hash u) = false) ->
       fst (login req1 w) = fst (login req2 w)).
Proof.
  intros H.
  specialize (H libraries world0
                (mk_request [] [("username", JStr "bob")] None)
                (mk_request [] [("username", JStr "alice")] None) eq_refl).
  assert (E : fst (login (mk_request [] [("username", JStr "bob")] None) world0)
              = fst (login (mk_request [] [("username", JStr "alice")] None)
                       world0)).
  { apply H.
    - intros u [<- | []]. discriminate.
    - exists alice. split; [left; reflexivity |]. split; [reflexivity |].
      intros p Hp. discriminate Hp. }
  vm_compute in E. discriminate E.
Qed.

(** C3 on the cookie that the login of alice sets at second 5: the token
    verifies at second 1804, under the secret of the process. *)
Lemma issued_token_verifies_until_expiry_witness :
  login (credentials "alice" "pw1") world0 =
  (Return (token_issued 200 token1 None),
   snd (login (credentials "alice" "pw1") world0)) /\
  verify_at (JStr token1) (JWT_SECRET world0) 1804 =
  inr (mk_payload 1 5 (Some 1805)).
Proof.
  assert (E : login (credentials "alice" "pw1") world0 =
              (Return (token_issued 200 token1 None),
               snd (login (credentials "alice" "pw1") world0)))
    by (vm_compute; reflexivity).
  split; [exact E |].
  destruct (issued_token_verifies_until_expiry (L := libraries)
              demo_decode_encode demo_decode_empty
              (credentials "alice" "pw1") world0
              (snd (login (credentials "alice" "pw1") world0))
              (token_issued 200 token1 None) "auth_token" token1
              (issuance_options None) (or_intror E) (or_introl eq_refl))
    as [key [u [Hkey [Hu [Hn [_ [_ [H _]]]]]]]].
  assert (Hid : id u = 1).
  { vm_compute in Hu. destruct Hu as [<- | []]. reflexivity. }
  rewrite (H 1804 ltac:(reflexivity)). rewrite Hid. reflexivity.
Defined.



(** C5 on a registration under the name of alice. *)
Lemma register_conflict_creates_nothing_witness :
  exists w',
    register (credentials "alice" "other") world0 =
    (Return username_in_use, w') /\
    db w' = db world0 /\
    entropy w' = entropy world0 /\
    log w' = (log world0 ++ [pool_query_called SELECT_users_WHERE_username])%list.
Proof.
  apply (register_conflict_creates_nothing
           (credentials "alice" "other") world0 alice).
  - reflexivity.
  - left. reflexivity.
  - reflexivity.
Defined.

(** C6 as it was stated fails on the attributes: the cookie that the login
    of alice sets has no sameSite, the clear instruction of logout has
    sameSite "strict". *)
Lemma logout_attributes_are_not_those_of_issuance :
  exists tok o_set o_clear,
    fst (login (credentials "alice" "pw1") world0) =
    Return (mk_response 200
              [("success", JBool true); ("redirect", JStr "/profile")]
              [res_cookie "auth_token" tok o_set]) /\
    fst (logout (with_cookie (JStr tok) []) world0) =
    Return (mk_response 200 [("success", JBool true)]
              [res_clearCookie "auth_token" o_clear]) /\
    sameSite o_clear <> sameSite o_set.
Proof.
  exists token1, (issuance_options None), (logout_options None).
  split; [vm_compute; reflexivity |].
  split; [reflexivity | discriminate].
Qed.

(** C7 on an update with an empty body, under the token of alice. *)
Lemma update_without_fields_is_500_witness :
  exists w',
    PUT_profile_update (with_cookie (JStr token1) []) world0 =
    (Return error_has_occurred, w') /\
    db w' = db world0 /\
    log w' = (log world0 ++ [jwt_verify_called;
                             pool_query_called (UPDATE_user_profiles [] 1)])%list /\
    fst (PUT_profile_update (with_cookie (JStr token1) []) world0)
      <> Return could_not_be_updated.
Proof.
  apply (update_without_fields_is_500 (with_cookie (JStr token1) []) world0
           (mk_payload 1 5 (Some 1805))).
  - vm_compute. reflexivity.
  - reflexivity.
  - reflexivity.
Defined.

(** C8 on the token of alice once her account is deleted: the gate admits
    it and the delete handler answers 404. *)
Lemma gate_never_consults_store_witness :
  fst (DELETE_profile_delete (with_cookie (JStr token1) []) world0) =
  Return (mk_response 200
            [("success", JBool true); ("message", JStr "User deleted.");
             ("redirect", JStr "/")] []) /\
  exists w',
    DELETE_profile_delete (with_cookie (JStr token1) [])
      (snd (DELETE_profile_delete (with_cookie (JStr token1) []) world0)) =
    (Return user_to_delete_not_found, w') /\
    log w' =
    (log (snd (DELETE_profile_delete (with_cookie (JStr token1) []) world0)) ++
       [jwt_verify_called; pool_query_called DELETE_FROM_users_WHERE_id])%list.
Proof.
  split; [vm_compute; reflexivity |].
  destruct (gate_never_consults_store (with_cookie (JStr token1) []) delete
              (snd (DELETE_profile_delete (with_cookie (JStr token1) [])
                      world0))) as [_ H].
  destruct (H (mk_payload 1 5 (Some 1805))) as [_ H'].
  - vm_compute. reflexivity.
  - apply H'; [reflexivity |]. intros u Hu. vm_compute in Hu. destruct Hu.
Defined.

(** C9 on an update with an empty displayName, and on one with an empty
    bio. *)
Lemma update_treats_falsy_as_absent_witness :
  PUT_profile_update
    (with_cookie (JStr token1)
       [("displayName", JStr EmptyString); ("bio", JStr "hi")]) world0 =
  PUT_profile_update (with_cookie (JStr token1) [("bio", JStr "hi")]) world0 /\
  PUT_profile_update
    (with_cookie (JStr token1)
       [("displayName", JStr "Al"); ("bio", JStr EmptyString)]) world0 =
  PUT_profile_update (with_cookie (JStr token1) [("displayName", JStr "Al")])
    world0.
Proof.
  split.
  - destruct (update_treats_falsy_as_absent
                (with_cookie (JStr token1)
                   [("displayName", JStr EmptyString); ("bio", JStr "hi")])
                world0) as [H _].
    destruct (H eq_refl) as [_ E]. exact E.
  - destruct (update_treats_falsy_as_absent
                (with_cookie (JStr token1)
                   [("displayName", JStr "Al"); ("bio", JStr EmptyString)])
                world0) as [_ [H _]].
    destruct (H eq_refl) as [_ E]. exact E.
Defined.

(** C10 on an update of alice's bio in the store of two accounts. *)
Lemma update_touches_only_own_profile_witness :
  Forall2 (fun p p' => user_id p <> 1 -> p' = p)
    (user_profiles two_accounts)
    (user_profiles
       (db (snd (PUT_profile_update
                   (with_cookie (JStr token1) [("bio", JStr "hi")])
                   (process two_accounts))))).
Proof.
  destruct (update_touches_only_own_profile
              (with_cookie (JStr token1) [("bio", JStr "hi")])
              (process two_accounts)) as [_ [_ [_ H]]].
  apply (H (mk_payload 1 5 (Some 1805))).
  vm_compute. reflexivity.
Defined.

End Instances.

(** * The test suites of the repository, run on the model *)

Section TestSuites.

Import Demo.

(** test/auth.test.js, POST /register: "Register a new user" *)
Example test_register_new_user :
  let res := fst (register (credentials "newuser" "newpassword") auth_fixture) in
  exists r, res = Return r /\ status r = 201 /\
            prop (json r) "success" = JBool true /\
            prop (json r) "redirect" = JStr "/profile".
Proof. eexists. vm_compute. repeat split. Qed.

(** "Return 409 status code for existing username" *)
Example test_register_existing_username :
  let res := fst (register (credentials "testuser" "testpassword") auth_fixture) in
  exists r, res = Return r /\ status r = 409 /\
            prop (json r) "success" = JBool false /\
            prop (json r) "message" =
            JStr "Username is already in use. Please choose a different one.".
Proof. eexists. vm_compute. repeat split. Qed.

(** POST /login: "Log in an existing user" *)
Example test_login_existing_user :
  let res := fst (login (credentials "testuser" "testpassword") auth_fixture) in
  exists r, res = Return r /\ status r = 200 /\
            prop (json r) "success" = JBool true /\
            prop (json r) "redirect" = JStr "/profile" /\
            set_cookie r =
            [res_cookie "auth_token" testToken (issuance_options None)].
Proof. eexists. vm_compute. repeat split. Qed.

(** "Return 401 status code for incorrect username" *)
Example test_login_incorrect_username :
  fst (login (credentials "wrongusername" "testpassword") auth_fixture) =
  Return incorrect_credentials.
Proof. reflexivity. Qed.

(** "Return 401 status code for incorrect password" *)
Example test_login_incorrect_password :
  fst (login (credentials "testuser" "wrongpassword") auth_fixture) =
  Return incorrect_credentials.
Proof. reflexivity. Qed.

(** "Return 401 status code for incorrect username and password" *)
Example test_login_incorrect_both :
  fst (login (credentials "wrongusername" "wrongpassword") auth_fixture) =
  Return incorrect_credentials.
Proof. reflexivity. Qed.

(** GET /validate: "Accept a valid authentication token" *)
Example test_validate_valid_token :
  fst (GET_auth_validate (with_cookie (JStr testToken) []) auth_fixture) =
  Return (mk_response 200 [("tokenIsValid", JBool true)] []).
Proof. vm_compute. reflexivity. Qed.

(** "Return 401 status code if no token is provided" *)
Example test_validate_no_token :
  fst (GET_auth_validate (mk_request [] [] None) auth_fixture) =
  Return no_token_provided.
Proof. reflexivity. Qed.

(** "Return 403 status code for invalid token" *)
Example test_validate_invalid_token :
  fst (GET_auth_validate (with_cookie (JStr invalidToken) []) auth_fixture) =
  Return invalid_token.
Proof. vm_compute. reflexivity. Qed.

(** POST /logout: "Log out user and clear auth_token cookie" *)
Example test_logout :
  let res := fst (logout (with_cookie (JStr testToken) []) auth_fixture) in
  exists r, res = Return r /\ status r = 200 /\
            prop (json r) "success" = JBool true.
Proof. eexists. vm_compute. repeat split. Qed.

(** test/profile.test.js, PUT /update: the body of the test names its first
    field [display_name], which the handler does not read; the bio alone is
    updated. *)
Example test_update_profile :
  PUT_profile_update
    (with_cookie (JStr testToken)
       [("display_name", JStr "New Display Name");
        ("bio", JStr "This is a new bio.")]) profile_fixture
  = (Return profile_updated,
     with_db
       (logged (logged profile_fixture jwt_verify_called)
          (pool_query_called (UPDATE_user_profiles [(col_bio, 1%nat)] 2)))
       (mk_db [testuser]
          [mk_profile 7 (Some (mk_varchar "Test User" eq_refl))
             (Some (mk_varchar "This is a new bio." eq_refl))] 7)).
Proof. vm_compute. reflexivity. Qed.

(** DELETE /delete: "Successfully delete existing user" *)
Example test_delete_user :
  let res :=
    DELETE_profile_delete (with_cookie (JStr testToken) []) profile_fixture in
  fst res =
  Return (mk_response 200
            [("success", JBool true); ("message", JStr "User deleted.");
             ("redirect", JStr "/")] []) /\
  users (db (snd res)) = [] /\ user_profiles (db (snd res)) = [].
Proof. vm_compute. repeat split. Qed.

End TestSuites.

(** * More of the code: the handlers one after the other *)

Section Frame.

Context {L : Libraries}.

Lemma steady_ret {A} (a : A) : steady (ret a).
Proof. intros w. simpl. auto. Qed.

Lemma steady_bind {A B} (m : M A) (k : A -> M B) :
  steady m -> (forall a, steady (k a)) -> steady (bind m k).
Proof.
  intros Hm Hk w. unfold bind.
  destruct (Hm w) as [H1 [H2 [H3 H4]]].
  destruct (m w) as [[a | e] w1]; simpl in *; [| auto].
  destruct (Hk a w1) as [K1 [K2 [K3 K4]]].
  rewrite K1, K2, K3. repeat split; try assumption.
  intros E. apply K4. apply H4. exact E.
Qed.

Lemma steady_try_catch {A} (m : M A) (h : string -> M A) :
  steady m -> (forall e, steady (h e)) -> steady (try_catch m h).
Proof.
  intros Hm Hh w. unfold try_catch.
  destruct (Hm w) as [H1 [H2 [H3 H4]]].
  destruct (m w) as [[a | e] w1]; simpl in *; [auto |].
  destruct (Hh e w1) as [K1 [K2 [K3 K4]]].
  rewrite K1, K2, K3. repeat split; try assumption.
  intros E. apply K4. apply H4. exact E.
Qed.

Lemma steady_pool_query q values : steady (pool_query q values).
Proof.
  intros w. unfold pool_query.
  destruct (hd false (faults w)); [| destruct (exec q values (db w))];
    simpl; repeat split; intros ->; reflexivity.
Qed.

Lemma steady_pool_query_view values : steady (pool_query_view values).
Proof.
  intros w. unfold pool_query_view.
  destruct (hd false (faults w)); [| destruct (placeholder values 1) as [v |];
    [destruct (pg_int v) |]];
    simpl; repeat split; intros ->; reflexivity.
Qed.

Lemma steady_first_row r : steady (first_row r).
Proof. intros w. unfold first_row. destruct (rows r); simpl; auto. Qed.

Lemma steady_jwt_sign i secret ttl : steady (jwt_sign i secret ttl).
Proof.
  intros w. unfold jwt_sign. destruct (secret_given secret); simpl; auto.
Qed.

Lemma steady_jwt_verify token secret : steady (jwt_verify token secret).
Proof. intros w. simpl. auto. Qed.

Lemma steady_bcrypt_genSalt rounds : steady (bcrypt_genSalt rounds).
Proof. intros w. simpl. auto. Qed.

Lemma steady_bcrypt_hash password salt : steady (bcrypt_hash password salt).
Proof. intros w. unfold bcrypt_hash. destruct password; simpl; auto. Qed.

Lemma steady_bcrypt_compare password hash :
  steady (bcrypt_compare password hash).
Proof. intros w. unfold bcrypt_compare. destruct password; simpl; auto. Qed.

Lemma steady_env_secret : steady process_env_JWT_SECRET.
Proof. intros w. simpl. auto. Qed.

Lemma steady_env_node : steady process_env_NODE_ENV.
Proof. intros w. simpl. auto. Qed.

Ltac steady_steps :=
  repeat first
    [ apply steady_try_catch | apply steady_bind | apply steady_ret
    | apply steady_pool_query | apply steady_pool_query_view
    | apply steady_first_row | apply steady_jwt_sign | apply steady_jwt_verify
    | apply steady_bcrypt_genSalt | apply steady_bcrypt_hash
    | apply steady_bcrypt_compare | apply steady_env_secret
    | apply steady_env_node
    | match goal with
      | |- forall _, _ => intro
      | |- steady (if ?b then _ else _) => destruct b
      | |- steady (match ?x with _ => _ end) => destruct x
      end ].

Lemma steady_public (r : public_route) (req : request) :
  steady (public r req).
Proof.
  destruct r; unfold public, register, login, logout, server_error, send;
    steady_steps.
Qed.

Lemma steady_gate req next :
  (forall r, steady (next r)) -> steady (authenticateJWT req next).
Proof.
  intros H. unfold authenticateJWT, send. steady_steps; apply H.
Qed.

Lemma steady_protected (r : protected_route) (req : request) :
  steady (protected r req).
Proof.
  destruct r;
    unfold protected, GET_auth_validate, GET_profile_view,
      PUT_profile_update, DELETE_profile_delete;
    apply steady_gate; intros r';
    unfold validate, view, update, delete, profile_error, send;
    steady_steps.
Qed.

End Frame.

Section Sessions.

Context {L : Libraries}.

Lemma filter_unique {A B} (f : A -> B) (eqb : B -> B -> bool) (l : list A)
  (u : A) :
  (forall x y, eqb x y = true <-> x = y) ->
  NoDup (map f l) -> In u l ->
  filter (fun v => eqb (f v) (f u)) l = [u].
Proof.
  intros Heq. induction l as [| a l IH]; intros Hnd Hin; [destruct Hin |].
  simpl in Hnd. inversion Hnd as [| x xs Hnotin Hnd']; subst.
  simpl. destruct Hin as [-> | Hin].
  - rewrite (proj2 (Heq (f u) (f u)) eq_refl). f_equal.
    apply filter_none. intros x Hx.
    destruct (eqb (f x) (f u)) eqn:E; [| reflexivity].
    apply Heq in E. exfalso. apply Hnotin. rewrite <- E.
    apply in_map. exact Hx.
  - destruct (eqb (f a) (f u)) eqn:E.
    + apply Heq in E. exfalso. apply Hnotin. rewrite E.
      apply in_map. exact Hin.
    + apply IH; assumption.
Qed.

Lemma login_succeeds req w u r p key :
  hd false (faults w) = false ->
  select_users_by_username (db w) (pg_text (prop (body req) "username"))
    = Return (u :: r) ->
  prop (body req) "password" = JStr p ->
  checkpw p (password_hash u) = true ->
  secret_given (JWT_SECRET w) = Some key ->
  exists w',
    login req w =
    (Return (token_issued 200 (sign_at key (id u) 1800 (now w)) (NODE_ENV w)),
     w') /\
    db w' = db w.
Proof.
  intros Hf Hsel Hp Hc Hkey. unfold login, try_catch, bind.
  rewrite (pool_query_sound _ _ _ Hf). cbn [exec placeholder nth_error].
  rewrite Hsel. simpl.
  rewrite Hp. unfold bcrypt_compare. rewrite Hc. simpl.
  unfold jwt_sign. simpl. rewrite Hkey. simpl.
  eexists. split; reflexivity.
Qed.

(** Where names are unique the lookup of the name of a row gives that
    row. *)
Lemma select_unique d u :
  NoDup (map username (users d)) -> In u (users d) ->
  select_users_by_username d (Some (username u)) = Return [u].
Proof.
  intros Hnd Hin. simpl. unfold username at 1.
  rewrite stored_text_has_no_nul. fold (username u). f_equal.
  apply (filter_unique username String.eqb (users d) u); try assumption.
  intros x y. apply String.eqb_eq.
Qed.

(** X1.  A login with the name of a user row and a password that matches
    its hash, when the pool answers, names are unique and a secret is set,
    is answered 200 [{success: true, redirect: "/profile"}] with the cookie
    [auth_token] holding a token for the id of that row, issued at the time
    of the request for 1800 seconds, under the options of issuance.  The
    tables are as before. *)
Theorem login_with_matching_password (req : request) (w : world)
  (u : user_row) (p key : string) :
  hd false (faults w) = false ->
  NoDup (map username (users (db w))) ->
  In u (users (db w)) ->
  pg_text (prop (body req) "username") = Some (username u) ->
  prop (body req) "password" = JStr p ->
  checkpw p (password_hash u) = true ->
  secret_given (JWT_SECRET w) = Some key ->
  exists w',
    login req w =
    (Return (mk_response 200
               [("success", JBool true); ("redirect", JStr "/profile")]
               [res_cookie "auth_token" (sign_at key (id u) 1800 (now w))
                  (mk_options (Some true)
                     (Some match NODE_ENV w with
                           | Some e => (e =? "production")%string
                           | None => false
                           end)
                     (Some 1800000) None)]), w') /\
    db w' = db w.
Proof.
  intros Hf Hnd Hin Hn Hp Hc Hkey.
  apply (login_succeeds req w u [] p key); try assumption.
  rewrite Hn. apply select_unique; assumption.
Qed.

(** X2.  Whatever the request, login answers 200, 401 or 500, writes nothing
    to the tables, and sets a cookie exactly when it answers 200: the cookie
    [auth_token] with the options of issuance. *)
Theorem login_reads_only (req : request) (w : world) :
  exists resp w',
    login req w = (Return resp, w') /\
    db w' = db w /\
    ((status resp = 200 /\
      exists tok,
        set_cookie resp =
        [res_cookie "auth_token" tok (issuance_options (NODE_ENV w))]) \/
     ((status resp = 401 \/ status resp = 500) /\ set_cookie resp = [])).
Proof.
  destruct (login_cases req w) as [resp [w' [E [Hdb H]]]].
  exists resp, w'. split; [exact E |]. split; [exact Hdb |].
  destruct H as [-> | [-> | [key [u [p [_ [_ [_ [_ [_ ->]]]]]]]]]].
  - right. split; [left |]; reflexivity.
  - right. split; [right |]; reflexivity.
  - left. split; [reflexivity |]. eexists. reflexivity.
Qed.

(** X3.  Whatever the request, register answers 201, 409 or 500 and sets a
    cookie exactly when it answers 201.  It never removes or rewrites a row:
    the tables afterwards are the tables before with at most one user row
    and at most one profile row appended, and with a 409 nothing is
    appended. *)
Theorem register_only_appends (req : request) (w : world) :
  exists resp w',
    register req w = (Return resp, w') /\
    ((status resp = 201 /\
      exists tok,
        set_cookie resp =
        [res_cookie "auth_token" tok (issuance_options (NODE_ENV w))]) \/
     ((status resp = 409 \/ status resp = 500) /\ set_cookie resp = [])) /\
    (exists us ps,
       users (db w') = (users (db w) ++ us)%list /\
       user_profiles (db w') = (user_profiles (db w) ++ ps)%list /\
       (length ps <= length us <= 1)%nat /\
       (us = [] \/ status resp <> 409)).
Proof.
  destruct (register_cases req w) as [resp [w' [E H]]].
  exists resp, w'. split; [exact E |].
  destruct H as [[-> [Hdb _]] | [[-> [Hu [Hp _]]] | [n [p [t [h H]]]]]].
  - split; [right; split; [left |]; reflexivity |].
    exists [], []. rewrite Hdb, !app_nil_r. simpl.
    repeat split; try lia; try (left; reflexivity).
  - split; [right; split; [right |]; reflexivity |].
    exists [], []. rewrite Hu, Hp, !app_nil_r. simpl.
    repeat split; try lia; try (left; reflexivity).
  - destruct H as [_ [_ [_ [_ [_ [_ [_ [_ H]]]]]]]]. simpl in H.
    destruct H as [[-> [Hdb _]] | [[-> [Hdb _]] | [Hdb [_ [key [_ ->]]]]]];
      rewrite Hdb.
    + split; [right; split; [right |]; reflexivity |].
      eexists [_], []. simpl. rewrite app_nil_r.
      repeat split; try lia; try (right; discriminate).
    + split; [right; split; [right |]; reflexivity |].
      eexists [_], [_]. simpl. repeat split; try lia; try (right; discriminate).
    + split; [left; split; [reflexivity |]; eexists; reflexivity |].
      eexists [_], [_]. simpl. repeat split; try lia; try (right; discriminate).
Qed.

(** X4.  A login whose password is not a string, when the pool answers: for
    a name without U+0000 that no user row carries the answer is the 401 of
    every failed login; for a name that a user row carries [bcrypt.compare]
    throws and the answer is 500 [{error: "Server error"}]; the same 500
    answers a name that holds U+0000, which the store refuses to read. *)
Theorem login_without_string_password (req : request) (w : world) :
  hd false (faults w) = false ->
  (forall p, prop (body req) "password" <> JStr p) ->
  (username_free (db w) (pg_text (prop (body req) "username")) ->
   readable (pg_text (prop (body req) "username")) = true ->
   fst (login req w) = Return incorrect_credentials) /\
  ((exists u, In u (users (db w)) /\
              pg_text (prop (body req) "username") = Some (username u)) ->
   fst (login req w) =
   Return (mk_response 500 [("error", JStr "Server error")] [])) /\
  (readable (pg_text (prop (body req) "username")) = false ->
   fst (login req w) =
   Return (mk_response 500 [("error", JStr "Server error")] [])).
Proof.
  intros Hf Hp. split; [| split].
  - intros Hfree Hr. apply login_unknown_username; assumption.
  - intros [u [Hu Hn]].
    apply (login_password_not_a_string req w u); assumption.
  - intros Hr. apply login_unreadable_username; assumption.
Qed.

End Sessions.

Section RegistrationSequences.

Context {L : Libraries}.









End RegistrationSequences.

Section Tables.

Context {L : Libraries}.

Lemma NoDup_map_filter {A B} (f : A -> B) (g : A -> bool) (l : list A) :
  NoDup (map f l) -> NoDup (map f (filter g l)).
Proof.
  induction l as [| a l IH]; simpl; intros H; [constructor |].
  inversion H as [| x xs Hnotin Hnd]; subst.
  destruct (g a); simpl; [constructor |]; auto.
  intros Hin. apply Hnotin.
  apply in_map_iff in Hin. destruct Hin as [x [Hx1 Hx2]].
  apply filter_In in Hx2. rewrite <- Hx1. apply in_map. tauto.
Qed.

Lemma in_map_filter {A B} (f : A -> B) (g : A -> bool) (l : list A) (y : B) :
  In y (map f (filter g l)) -> In y (map f l).
Proof.
  intros H. apply in_map_iff in H. destruct H as [x [Hx1 Hx2]].
  apply filter_In in Hx2. rewrite <- Hx1. apply in_map. tauto.
Qed.

Lemma update_keeps_user_ids i l ps :
  map user_id (map (update_row i l) ps) = map user_id ps.
Proof.
  rewrite map_map. apply map_ext. intros p. apply update_row_keeps_user_id.
Qed.

Lemma consistent_user_and_profile_added d u :
  consistent d -> username_free d (Some (username u)) ->
  id u = users_id_seq d + 1 ->
  consistent (user_added d u) /\
  consistent (user_and_profile_added d u).
Proof.
  intros [Hn [Hi [Hs [Hfk Hp]]]] Hfree Hid.
  assert (Hnew : ~ In (id u) (map id (users d))).
  { intros H. apply Hs in H. lia. }
  assert (Hnames : NoDup (map username (users d ++ [u]))).
  { rewrite map_app. apply NoDup_app; [exact Hn | repeat constructor; auto |].
    intros a Ha [<- | []].
    apply in_map_iff in Ha. destruct Ha as [v [Hv1 Hv2]].
    apply (Hfree v Hv2). rewrite Hv1. reflexivity. }
  assert (Hids : NoDup (map id (users d ++ [u]))).
  { rewrite map_app. apply NoDup_app; [exact Hi | repeat constructor; auto |].
    intros a Ha [<- | []]. exact (Hnew Ha). }
  assert (Hseq : forall i, In i (map id (users d ++ [u])) -> i <= id u).
  { intros i H. rewrite map_app in H. apply in_app_or in H.
    destruct H as [H | [<- | []]]; [apply Hs in H; lia | simpl; lia]. }
  split; unfold consistent, user_added, user_and_profile_added; simpl.
  - repeat split; try assumption.
    rewrite map_app. apply incl_appl. exact Hfk.
  - repeat split; try assumption.
    + rewrite !map_app. apply incl_app_app; [exact Hfk | apply incl_refl].
    + rewrite map_app. apply NoDup_app; [exact Hp | repeat constructor; auto |].
      intros a Ha [<- | []]. apply Hnew. apply Hfk. exact Ha.
Qed.

(** A step of the sequence alone keeps the tables consistent. *)
Lemma consistent_same_rows d d' :
  consistent d ->
  users d' = users d -> user_profiles d' = user_profiles d ->
  users_id_seq d <= users_id_seq d' ->
  consistent d'.
Proof.
  intros [Hn [Hi [Hs [Hfk Hp]]]] Hu Hps Hseq.
  unfold consistent. rewrite Hu, Hps. repeat split; try assumption.
  intros i H. apply Hs in H. lia.
Qed.

Lemma consistent_after_delete d i :
  consistent d ->
  consistent (mk_db (filter (fun u => negb (id u =? i)) (users d))
                    (filter (fun p => negb (user_id p =? i)) (user_profiles d))
                    (users_id_seq d)).
Proof.
  intros [Hn [Hi [Hs [Hfk Hp]]]]. unfold consistent. simpl.
  repeat split; try (apply NoDup_map_filter; assumption).
  - intros j Hj. apply Hs. eapply in_map_filter. exact Hj.
  - intros j Hj. apply in_map_iff in Hj. destruct Hj as [p [Hp1 Hp2]].
    apply filter_In in Hp2. destruct Hp2 as [Hp2 Hp3].
    assert (Hin : In j (map id (users d))).
    { apply Hfk. rewrite <- Hp1. apply in_map. exact Hp2. }
    apply in_map_iff in Hin. destruct Hin as [u [Hu1 Hu2]].
    apply in_map_iff. exists u. split; [exact Hu1 |].
    apply filter_In. split; [exact Hu2 |].
    rewrite Hu1, <- Hp1. exact Hp3.
Qed.

(** What a protected route does to the tables: nothing, or the update, or
    the delete, for the id of the token. *)
Lemma protected_writes (r : protected_route) req w :
  db (snd (protected r req w)) = db w \/
  exists decoded,
    verify_at (prop (cookies req) "auth_token") (JWT_SECRET w) (now w)
      = inr decoded /\
    users_id_seq (db (snd (protected r req w))) = users_id_seq (db w) /\
    ((r = route_update /\
      users (db (snd (protected r req w))) = users (db w) /\
      exists l,
        user_profiles (db (snd (protected r req w))) =
        map (update_row (claim_id decoded) l) (user_profiles (db w))) \/
     (r = route_delete /\
      users (db (snd (protected r req w))) =
      filter (fun u => negb (id u =? claim_id decoded)) (users (db w)) /\
      user_profiles (db (snd (protected r req w))) =
      filter (fun p => negb (user_id p =? claim_id decoded))
             (user_profiles (db w)))).
Proof.
  destruct r; unfold protected.
  - unfold GET_auth_validate.
    destruct (gate_trichotomy req validate w)
      as [[r E] | [[r E] | [d [_ E]]]]; rewrite E; simpl; auto.
  - unfold GET_profile_view.
    destruct (gate_trichotomy req view w)
      as [[r E] | [[r E] | [d [_ E]]]]; rewrite E; simpl; auto.
    destruct (view_cases (with_user_id req (claim_id d))
                (logged w jwt_verify_called) (claim_id d) eq_refl)
      as [w' [Hdb [[E' _] | [_ E']]]]; rewrite E'; simpl; left; exact Hdb.
  - destruct (route_update_effect req w) as [E | [d [l' [Hv [_ [Hu [Hs Hp]]]]]]];
      [left; exact E |].
    right. exists d. repeat split; try assumption.
    left. repeat split; try assumption. eexists. exact Hp.
  - unfold DELETE_profile_delete.
    destruct (gate_trichotomy req delete w)
      as [[r E] | [[r E] | [d [Hv E]]]]; rewrite E; simpl; auto.
    destruct (delete_cases (with_user_id req (claim_id d))
                (logged w jwt_verify_called) (claim_id d) eq_refl)
      as [w' [[E' [_ Hdb]] | [E' [_ [Hu [Hp Hs]]]]]]; rewrite E'; simpl in *.
    + left. exact Hdb.
    + right. exists d. repeat split; try assumption.
      right. repeat split; assumption.
Qed.

(** X8.  Every route keeps the tables consistent: after any request to any
    of the seven routes, the names and the ids of the user rows are still
    unique, no id is ahead of the sequence, every profile row still belongs
    to a user row, and no user has two profile rows, although the table of
    profiles has no constraint that says so. *)
Theorem routes_keep_tables_consistent (req : request) (w : world) :
  consistent (db w) ->
  (forall r : public_route, consistent (db (snd (public r req w)))) /\
  (forall r : protected_route, consistent (db (snd (protected r req w)))).
Proof.
  intros Hc. split; intros r.
  - destruct r; simpl.
    + destruct (register_cases req w) as [resp [w' [E H]]]. rewrite E. simpl.
      destruct H as [[_ [Hdb _]] | [[_ [Hu [Hp Hs]]] | [n [p [t [h H]]]]]].
      * rewrite Hdb. exact Hc.
      * apply (consistent_same_rows (db w)); try assumption.
        destruct Hs as [-> | ->]; lia.
      * destruct H as [_ [_ [_ [_ [_ [Hfree [_ [_ H]]]]]]]]. simpl in H.
        destruct (consistent_user_and_profile_added (db w)
                    (mk_user (users_id_seq (db w) + 1) t h) Hc Hfree eq_refl)
          as [C1 C2].
        destruct H as [[_ [Hdb _]] | [[_ [Hdb _]] | [Hdb _]]];
          rewrite Hdb; assumption.
    + destruct (login_cases req w) as [resp [w' [E [Hdb _]]]].
      rewrite E. simpl. rewrite Hdb. exact Hc.
    + exact Hc.
  - destruct (protected_writes r req w)
      as [E | [d [_ [Hs [[_ [Hu [l Hp]]] | [_ [Hu Hp]]]]]]].
    + rewrite E. exact Hc.
    + destruct Hc as [Hn [Hi [Hq [Hfk Hnp]]]].
      unfold consistent. rewrite Hu, Hs, Hp, update_keeps_user_ids.
      repeat split; assumption.
    + pose proof (consistent_after_delete (db w) (claim_id d) Hc) as H.
      unfold consistent in *. simpl in H. rewrite Hu, Hp, Hs. exact H.
Qed.

Lemma existsb_after_update i l x ps :
  existsb (fun p => user_id p =? x) (map (update_row i l) ps) =
  existsb (fun p => user_id p =? x) ps.
Proof.
  induction ps as [| p ps IH]; simpl; [reflexivity |].
  rewrite update_row_keeps_user_id, IH. reflexivity.
Qed.

Lemma profiles_after_delete d i :
  every_user_has_profile d = true ->
  every_user_has_profile
    (mk_db (filter (fun u => negb (id u =? i)) (users d))
           (filter (fun p => negb (user_id p =? i)) (user_profiles d))
           (users_id_seq d)) = true.
Proof.
  unfold every_user_has_profile. simpl. intros H.
  rewrite forallb_forall in *. intros u Hu.
  apply filter_In in Hu. destruct Hu as [Hu Hne].
  specialize (H u Hu). apply existsb_exists in H. destruct H as [p [Hp Hid]].
  apply existsb_exists. exists p. split; [| exact Hid].
  apply filter_In. split; [exact Hp |].
  apply Z.eqb_eq in Hid. rewrite Hid. exact Hne.
Qed.

(** X9.  Only a registration can leave a user row without a profile row.
    When every user row has a profile row, it still has one after any
    request to login, to logout and to each of the four protected routes,
    whatever the pool does. *)
Theorem other_routes_keep_profiles (req : request) (w : world) :
  every_user_has_profile (db w) = true ->
  every_user_has_profile (db (snd (login req w))) = true /\
  every_user_has_profile (db (snd (logout req w))) = true /\
  (forall r : protected_route,
     every_user_has_profile (db (snd (protected r req w))) = true).
Proof.
  intros H. split; [| split].
  - destruct (login_cases req w) as [resp [w' [E [Hdb _]]]].
    rewrite E. simpl. rewrite Hdb. exact H.
  - exact H.
  - intros r.
    destruct (protected_writes r req w)
      as [E | [d [_ [Hs [[_ [Hu [l Hp]]] | [_ [Hu Hp]]]]]]].
    + rewrite E. exact H.
    + unfold every_user_has_profile in *. rewrite Hu, Hp.
      rewrite forallb_forall in *. intros u Hin.
      rewrite existsb_after_update. apply H. exact Hin.
    + pose proof (profiles_after_delete (db w) (claim_id d) H) as H'.
      unfold every_user_has_profile in *. simpl in H'.
      rewrite Hu, Hp. exact H'.
Qed.

End Tables.

Section Profiles.

Context {L : Libraries}.




Lemma select_view_in d i r rs :
  select_profile_view d (Some i) = r :: rs ->
  exists u p,
    In u (users d) /\ In p (user_profiles d) /\
    id u = i /\ user_id p = i /\
    r = mk_view (username u) (display_name p) (bio p).
Proof.
  intros E.
  assert (H : In r (select_profile_view d (Some i)))
    by (rewrite E; left; reflexivity).
  unfold select_profile_view in H. apply in_flat_map in H.
  destruct H as [u [Hu H]].
  destruct (id u =? i) eqn:Ei; [| destruct H].
  apply Z.eqb_eq in Ei.
  apply in_map_iff in H. destruct H as [p [Hr Hp]].
  apply filter_In in Hp. destruct Hp as [Hp Hid].
  apply Z.eqb_eq in Hid.
  exists u, p. repeat split; try assumption; [lia | symmetry; exact Hr].
Qed.

(** X10.  GET /profile/view never writes, and shows the caller nothing but
    the caller's own row.  Whatever the request the tables are as before.
    An answer 200 carries as [data] the username of a user row and the
    display_name and bio of a profile row that both bear the id of the
    token, and nothing else: no id, no password hash.  When the request is
    admitted, the pool answers and no user row with a profile row bears
    that id, the answer is 404 "Profile not found." *)
Theorem view_shows_own_row_only (req : request) (w : world) :
  db (snd (GET_profile_view req w)) = db w /\
  (forall resp w',
     GET_profile_view req w = (Return resp, w') ->
     status resp = 200 ->
     exists decoded u p,
       verify_at (prop (cookies req) "auth_token") (JWT_SECRET w) (now w)
         = inr decoded /\
       In u (users (db w)) /\ In p (user_profiles (db w)) /\
       id u = claim_id decoded /\ user_id p = claim_id decoded /\
       json resp =
       [("success", JBool true);
        ("data", row_object (mk_view (username u) (display_name p) (bio p)))]) /\
  (forall decoded,
     verify_at (prop (cookies req) "auth_token") (JWT_SECRET w) (now w)
       = inr decoded ->
     hd false (faults w) = false ->
     (forall u p, In u (users (db w)) -> In p (user_profiles (db w)) ->
                  id u = claim_id decoded -> user_id p <> claim_id decoded) ->
     fst (GET_profile_view req w) =
     Return (mk_response 404
               [("success", JBool false);
                ("message", JStr "Profile not found.")] [])).
Proof.
  split; [| split].
  - destruct (protected_writes route_view req w)
      as [E | [d [_ [_ [[H _] | [H _]]]]]]; [exact E | |]; discriminate H.
  - intros resp w' E H200. unfold GET_profile_view in E.
    destruct (truthy (prop (cookies req) "auth_token")) eqn:Ht.
    + destruct (verify_at (prop (cookies req) "auth_token") (JWT_SECRET w)
                  (now w)) as [e | d] eqn:Hv.
      * rewrite (gate_rejects_unverified _ _ _ _ Ht Hv) in E.
        injection E as <- _. cbv in H200. discriminate H200.
      * rewrite (gate_passes _ _ _ _ Hv) in E.
        destruct (view_cases (with_user_id req (claim_id d))
                    (logged w jwt_verify_called) (claim_id d) eq_refl)
          as [w'' [_ [[E' _] | [_ E']]]]; rewrite E' in E.
        -- injection E as <- _. cbv in H200. discriminate H200.
        -- change (db (logged w jwt_verify_called)) with (db w) in E.
           destruct (select_profile_view (db w) (Some (claim_id d)))
             as [| row rs] eqn:Es.
           ++ injection E as <- _. cbv in H200. discriminate H200.
           ++ injection E as <- _.
              destruct (select_view_in _ _ _ _ Es)
                as [u [p [Hu [Hp [Hi [Hpi ->]]]]]].
              exists d, u, p. repeat split; assumption.
    + rewrite (gate_rejects_falsy _ _ _ Ht) in E.
      injection E as <- _. cbv in H200. discriminate H200.
  - intros decoded Hv Hf Hno. unfold GET_profile_view.
    rewrite (gate_passes _ _ _ _ Hv).
    destruct (view_cases (with_user_id req (claim_id decoded))
                (logged w jwt_verify_called) (claim_id decoded) eq_refl)
      as [w'' [_ [[_ F] | [_ E']]]].
    + simpl in F. rewrite Hf in F. discriminate.
    + rewrite E'. change (db (logged w jwt_verify_called)) with (db w).
      cbn [fst].
      destruct (select_profile_view (db w) (Some (claim_id decoded)))
        as [| row rs] eqn:Es; [reflexivity |].
      destruct (select_view_in _ _ _ _ Es) as [u [p [Hu [Hp [Hi [Hpi _]]]]]].
      exfalso. exact (Hno u p Hu Hp Hi Hpi).
Qed.

Lemma filter_not_empty {A} (f : A -> bool) (l : list A) (x : A) :
  In x l -> f x = true -> Nat.eqb (length (filter f l)) 0 = false.
Proof.
  intros Hin Hf. destruct (filter_some f l x Hin Hf) as [y [r E]].
  rewrite E. reflexivity.
Qed.

(** X11.  DELETE /profile/delete with the token of a user that has a row,
    when the pool answers, is answered 200
    [{success: true, message: "User deleted.", redirect: "/"}]; afterwards
    the user rows are the former ones but those with the id of the token,
    and the profile rows are the former ones but those of that id: the
    profile goes with the user, and no row of anybody else is touched. *)
Theorem delete_removes_user_and_profile (req : request) (w : world)
  (decoded : jwt_payload) (u : user_row) :
  verify_at (prop (cookies req) "auth_token") (JWT_SECRET w) (now w)
    = inr decoded ->
  hd false (faults w) = false ->
  In u (users (db w)) ->
  id u = claim_id decoded ->
  exists w',
    DELETE_profile_delete req w =
    (Return (mk_response 200
               [("success", JBool true); ("message", JStr "User deleted.");
                ("redirect", JStr "/")] []), w') /\
    (forall v, In v (users (db w')) <->
               In v (users (db w)) /\ id v <> claim_id decoded) /\
    (forall p, In p (user_profiles (db w')) <->
               In p (user_profiles (db w)) /\ user_id p <> claim_id decoded).
Proof.
  intros Hv Hf Hu Hid. unfold DELETE_profile_delete.
  rewrite (gate_passes _ _ _ _ Hv).
  destruct (delete_cases (with_user_id req (claim_id decoded))
              (logged w jwt_verify_called) (claim_id decoded) eq_refl)
    as [w' [[_ [F _]] | [E [_ [Hus [Hps _]]]]]]; simpl in *.
  - rewrite Hf in F. discriminate.
  - exists w'. rewrite E.
    rewrite (filter_not_empty (fun v => id v =? claim_id decoded) _ u Hu)
      by (apply Z.eqb_eq; exact Hid).
    split; [reflexivity |]. rewrite Hus, Hps.
    split; intros x; rewrite filter_In, negb_true_iff, Z.eqb_neq; tauto.
Qed.


(** X13.  PUT /profile/update with at least one truthy field, each truthy
    field a text the column takes (no U+0000, nothing but spaces past the
    255th character), under the token of a user that has a profile row, when
    the pool answers, is answered 200
    [{success: true, message: "Profile updated."}].  Afterwards each profile
    row of that user holds, for a truthy field, the first 255 characters of
    the text of the field, and for a field that is falsy or missing, what it
    held before. *)
Theorem update_writes_truthy_fields (req : request) (w : world)
  (decoded : jwt_payload) :
  verify_at (prop (cookies req) "auth_token") (JWT_SECRET w) (now w)
    = inr decoded ->
  hd false (faults w) = false ->
  assignments (prop (body req) "displayName") (prop (body req) "bio") <> [] ->
  forallb assignment_fits
    (assignments (prop (body req) "displayName") (prop (body req) "bio"))
    = true ->
  (exists p, In p (user_profiles (db w)) /\ user_id p = claim_id decoded) ->
  fst (PUT_profile_update req w) =
  Return (mk_response 200
            [("success", JBool true); ("message", JStr "Profile updated.")] []) /\
  Forall2 (fun p p' =>
             user_id p = claim_id decoded ->
             display_name p' =
             (if truthy (prop (body req) "displayName")
              then kept255 (pg_text (prop (body req) "displayName"))
              else display_name p) /\
             bio p' =
             (if truthy (prop (body req) "bio")
              then kept255 (pg_text (prop (body req) "bio"))
              else bio p))
          (user_profiles (db w))
          (user_profiles (db (snd (PUT_profile_update req w)))).
Proof.
  intros Hv Hf Hl Hfit [p [Hp Hpi]]. unfold PUT_profile_update.
  rewrite (gate_passes _ _ _ _ Hv).
  destruct (update_cases (with_user_id req (claim_id decoded))
              (logged w jwt_verify_called) (claim_id decoded) eq_refl)
    as [w' [[H _] | [_ [_ [_ [l' [El [E [_ [_ Hps]]]]]]]]]]; simpl in *.
  - exfalso. destruct H as [H | [H | H]]; congruence.
  - rewrite E. simpl. rewrite Hps.
    rewrite (filter_not_empty (fun q => user_id q =? claim_id decoded) _ p Hp)
      by (apply Z.eqb_eq; exact Hpi).
    split; [reflexivity |].
    apply Forall2_map_self. intros q Hq.
    apply written_fields; assumption.
Qed.


Lemma nul_does_not_fit l c s :
  In (c, Some s) l -> has_nul s = true -> forallb assignment_fits l = false.
Proof.
  intros Hin Hs. destruct (forallb assignment_fits l) eqn:E; [| reflexivity].
  rewrite forallb_forall in E. specialize (E _ Hin).
  unfold assignment_fits, takes_varchar255 in E. simpl in E.
  rewrite Hs in E. discriminate.
Qed.

(** X21.  PUT /profile/update is answered 500
    "An error has occurred. Please try again later." and writes nothing, not
    even the other field, when the gate admits the request and either a
    truthy field holds U+0000, which the store refuses to read whether or
    not the user has a profile row, or the user has a profile row and the
    column does not take the text of a truthy field: something else than
    spaces stands past its 255th character. *)
Theorem update_refuses_text (req : request) (w : world)
  (decoded : jwt_payload) :
  verify_at (prop (cookies req) "auth_token") (JWT_SECRET w) (now w)
    = inr decoded ->
  ((exists c s,
      In (c, Some s)
         (assignments (prop (body req) "displayName") (prop (body req) "bio")) /\
      has_nul s = true) \/
   (forallb assignment_fits
      (assignments (prop (body req) "displayName") (prop (body req) "bio"))
      = false /\
    exists p, In p (user_profiles (db w)) /\ user_id p = claim_id decoded)) ->
  fst (PUT_profile_update req w) = Return error_has_occurred /\
  db (snd (PUT_profile_update req w)) = db w.
Proof.
  intros Hv Hbad.
  assert (Hfit : forallb assignment_fits
                   (assignments (prop (body req) "displayName")
                                (prop (body req) "bio")) = false).
  { destruct Hbad as [[c [s [Hin Hs]]] | [H _]]; [| exact H].
    apply (nul_does_not_fit _ c s); assumption. }
  unfold PUT_profile_update.
  rewrite (gate_passes _ _ _ _ Hv).
  destruct (update_cases (with_user_id req (claim_id decoded))
              (logged w jwt_verify_called) (claim_id decoded) eq_refl)
    as [w' [[_ [E Hdb]] | [_ [_ [T _]]]]]; simpl in *.
  - rewrite E. split; [reflexivity | exact Hdb].
  - rewrite T in Hfit. discriminate.
Qed.

End Profiles.

Section UpdateAgain.

Context {L : Libraries}.

(** X15.  The statement the update handler builds and its values array line
    up.  Whatever the two fields, each assignment of the SET list is bound to
    the value of its own field, the placeholder of the WHERE clause is bound
    to the id the gate attached, and the array has one value per placeholder:
    the values are the truthy fields, in the order displayName, bio, then the
    id. *)
Theorem update_placeholders_line_up (displayName b uid : jsval) :
  bind_assignments (snd (fst (update_clauses displayName b)) ++ [uid])
                   (fst (fst (update_clauses displayName b)))
    = Return (assignments displayName b) /\
  placeholder (snd (fst (update_clauses displayName b)) ++ [uid])
              (snd (update_clauses displayName b))
    = Return uid /\
  snd (update_clauses displayName b) =
  S (length (fst (fst (update_clauses displayName b)))) /\
  length (snd (fst (update_clauses displayName b)) ++ [uid]) =
  snd (update_clauses displayName b) /\
  snd (fst (update_clauses displayName b)) =
  filter truthy [displayName; b].
Proof.
  unfold update_clauses, assignments.
  destruct (truthy displayName) eqn:Td, (truthy b) eqn:Tb; simpl;
    rewrite ?Td, ?Tb; repeat split.
Qed.

Lemma update_row_twice dn b l' i p :
  assign_columns (assignments dn b) = Return l' ->
  update_row i l' (update_row i l' p) = update_row i l' p.
Proof.
  intros H. destruct (assign_columns_of_fields _ _ _ H) as [x [y [-> _]]].
  unfold update_row.
  destruct (user_id p =? i) eqn:E; [| rewrite E; reflexivity].
  destruct (truthy dn), (truthy b); simpl; rewrite ?E; reflexivity.
Qed.

Lemma count_after_update i l ps :
  length (filter (fun p => user_id p =? i) (map (update_row i l) ps)) =
  length (filter (fun p => user_id p =? i) ps).
Proof.
  induction ps as [| p ps IH]; simpl; [reflexivity |].
  rewrite update_row_keeps_user_id.
  destruct (user_id p =? i); simpl; rewrite IH; reflexivity.
Qed.

Lemma database_ext (a b : database) :
  users a = users b -> user_profiles a = user_profiles b ->
  users_id_seq a = users_id_seq b -> a = b.
Proof.
  destruct a, b. simpl. intros -> -> ->. reflexivity.
Qed.

(** X16.  Sending the same update twice is the same as sending it once, as
    long as the gate decides the second time as it did the first: the clock
    may have moved, but a token that verified has not expired in between.
    On a sound pool the second PUT /profile/update then gets the answer of
    the first, whichever it was, and leaves the tables as the first left
    them. *)
Theorem update_twice (req : request) (w : world) (t : Z) :
  faults w = [] ->
  verify_at (prop (cookies req) "auth_token") (JWT_SECRET w) t =
  verify_at (prop (cookies req) "auth_token") (JWT_SECRET w) (now w) ->
  fst (PUT_profile_update req (at_time (snd (PUT_profile_update req w)) t)) =
  fst (PUT_profile_update req w) /\
  db (snd (PUT_profile_update req
             (at_time (snd (PUT_profile_update req w)) t))) =
  db (snd (PUT_profile_update req w)).
Proof.
  intros Hf Hsame.
  destruct (steady_protected route_update req w) as [S1 [_ [_ S4]]].
  simpl in S1, S4. specialize (S4 Hf).
  set (w1 := snd (PUT_profile_update req w)) in *.
  set (w1t := at_time w1 t).
  assert (Hdb1 : db w1t = db w1) by reflexivity.
  assert (Hf1 : faults w1t = []) by exact S4.
  destruct (truthy (prop (cookies req) "auth_token")) eqn:Ht.
  2:{ unfold PUT_profile_update in *.
      rewrite (gate_rejects_falsy _ _ w1t Ht).
      subst w1t w1. rewrite !(gate_rejects_falsy _ _ w Ht).
      split; reflexivity. }
  destruct (verify_at (prop (cookies req) "auth_token") (JWT_SECRET w) (now w))
    as [e | d] eqn:Hv.
  { assert (Hv1 : verify_at (prop (cookies req) "auth_token") (JWT_SECRET w1t)
                    (now w1t) = inl e).
    { unfold w1t. simpl. rewrite S1. exact Hsame. }
    unfold PUT_profile_update in *.
    rewrite (gate_rejects_unverified _ _ _ _ Ht Hv1).
    subst w1t w1. rewrite !(gate_rejects_unverified _ _ _ _ Ht Hv).
    split; reflexivity. }
  assert (Hv1 : verify_at (prop (cookies req) "auth_token") (JWT_SECRET w1t)
                  (now w1t) = inr d).
  { unfold w1t. simpl. rewrite S1. exact Hsame. }
  assert (E1 : PUT_profile_update req w1t =
               update (with_user_id req (claim_id d))
                      (logged w1t jwt_verify_called))
    by (apply gate_passes; exact Hv1).
  assert (E0 : PUT_profile_update req w =
               update (with_user_id req (claim_id d))
                      (logged w jwt_verify_called))
    by (apply gate_passes; exact Hv).
  rewrite E1.
  destruct (update_cases (with_user_id req (claim_id d))
              (logged w1t jwt_verify_called) (claim_id d) eq_refl)
    as [w2 [[C2 [R2 D2]] | [_ [L2 [T2 [l2 [A2 [R2 [U2 [Q2 P2]]]]]]]]]];
  destruct (update_cases (with_user_id req (claim_id d))
              (logged w jwt_verify_called) (claim_id d) eq_refl)
    as [w0 [[C0 [R0 D0]] | [_ [L0 [T0 [l0 [A0 [R0 [U0 [Q0 P0]]]]]]]]]];
  cbn [body with_user_id faults logged db] in *;
  rewrite ?Hf, ?Hf1 in *; cbn [hd] in *.
  - assert (Hw : w1 = w0) by (unfold w1; rewrite E0, R0; reflexivity).
    rewrite R2. rewrite Hw in *. rewrite E0, R0. simpl.
    split; [reflexivity | rewrite D2; exact Hdb1].
  - exfalso. destruct C2 as [C | [C | C]]; congruence.
  - exfalso. destruct C0 as [C | [C | C]]; congruence.
  - assert (Hw : w1 = w0) by (unfold w1; rewrite E0, R0; reflexivity).
    assert (Hl : l2 = l0) by congruence. subst l2.
    rewrite R2. rewrite Hw in *. rewrite E0, R0. cbn [fst snd].
    rewrite Hdb1 in *.
    rewrite P0, count_after_update.
    split; [reflexivity |].
    apply database_ext; [congruence | | congruence].
    rewrite P2, P0. rewrite map_map. apply map_ext. intros p.
    apply (update_row_twice _ _ _ _ _ A0).
Qed.

(** X17.  The four routes of the profile and of validation are all behind
    the gate.  On each of GET /auth/validate, GET /profile/view,
    PUT /profile/update and DELETE /profile/delete, a request whose cookie
    is missing or falsy is answered 401 with the world untouched, and a
    request whose token does not verify is answered 403 after the one call
    of [jwt.verify]: the handler does not run and the store is not
    queried. *)
Theorem protected_routes_share_the_gate (r : protected_route)
  (req : request) (w : world) :
  (truthy (prop (cookies req) "auth_token") = false ->
   protected r req w = (Return no_token_provided, w)) /\
  (truthy (prop (cookies req) "auth_token") = true ->
   forall e,
     verify_at (prop (cookies req) "auth_token") (JWT_SECRET w) (now w)
       = inl e ->
     protected r req w = (Return invalid_token, logged w jwt_verify_called)).
Proof.
  split.
  - intros Ht. destruct r; apply gate_rejects_falsy; exact Ht.
  - intros Ht e Hv. destruct r; eapply gate_rejects_unverified; eassumption.
Qed.

End UpdateAgain.

Section Lifetimes.

Context {L : Libraries}.

Hypothesis jwt_decode_encode : forall j, jwt_decode (jwt_encode j) = Some j.
Hypothesis jwt_decode_empty : jwt_decode EmptyString = None.

Lemma issued_token_at_the_gate key i t0 secret t :
  secret_given secret = Some key ->
  verify_at (JStr (sign_at key i 1800 t0)) secret t =
  if t0 + 1800 <=? t then inl TokenExpiredError
  else inr (mk_payload i t0 (Some (t0 + 1800))).
Proof.
  intros Hkey.
  rewrite (verify_issued jwt_decode_encode jwt_decode_empty). simpl.
  rewrite Hkey. rewrite String.eqb_refl. reflexivity.
Qed.


(** X19.  The lifetime of a session.  The token that a login put in its
    cookie at second t0 opens the gate at every second before t0 + 1800 and
    is answered 403 "Forbidden: Invalid token" from second t0 + 1800 on, as
    long as the secret of the process is the same.  A logout in between
    changes nothing to that: the server keeps no record of the tokens it
    issued and the token stays good until it expires. *)
Theorem login_cookie_lifetime (req req2 r : request) (w w1 : world)
  (resp : response) (tok : string) (o : cookie_options) (t : Z) :
  login req w = (Return resp, w1) ->
  In (res_cookie "auth_token" tok o) (set_cookie resp) ->
  prop (cookies req2) "auth_token" = JStr tok ->
  (t < now w + 1800 ->
   fst (GET_auth_validate req2 (at_time (snd (logout r w1)) t)) =
   Return (mk_response 200 [("tokenIsValid", JBool true)] [])) /\
  (now w + 1800 <= t ->
   fst (GET_auth_validate req2 (at_time (snd (logout r w1)) t)) =
   Return invalid_token).
Proof.
  intros E Hin Hck.
  destruct (steady_public route_login req w) as [S1 _].
  simpl in S1. rewrite E in S1. simpl in S1.
  destruct (login_cases req w) as [resp' [w' [E' [_ H]]]].
  rewrite E in E'. injection E' as <- <-.
  destruct H as [-> | [-> | [key [u [p [Hkey [_ [_ [_ [_ ->]]]]]]]]]];
    [destruct Hin | destruct Hin |].
  simpl in Hin. destruct Hin as [Hin | []]. injection Hin as <- _.
  change (snd (logout r w1)) with w1.
  assert (Hv : verify_at (prop (cookies req2) "auth_token")
                 (JWT_SECRET (at_time w1 t)) (now (at_time w1 t)) =
               if now w + 1800 <=? t then inl TokenExpiredError
               else inr (mk_payload (id u) (now w) (Some (now w + 1800)))).
  { rewrite Hck. simpl. apply issued_token_at_the_gate. congruence. }
  split; intros Ht.
  - destruct (now w + 1800 <=? t) eqn:El; [apply Z.leb_le in El; lia |].
    unfold GET_auth_validate. rewrite (gate_passes _ _ _ _ Hv). reflexivity.
  - destruct (now w + 1800 <=? t) eqn:El; [| apply Z.leb_gt in El; lia].
    unfold GET_auth_validate.
    rewrite (gate_rejects_unverified _ _ _ TokenExpiredError); [reflexivity | |].
    + rewrite Hck.
      apply (issued_token_is_truthy jwt_decode_encode jwt_decode_empty).
    + exact Hv.
Qed.

End Lifetimes.

(** * The sequences at concrete requests *)

Section MoreInstances.

Import Demo.

Lemma world0_is_consistent : consistent (db world0).
Proof.
  unfold consistent. simpl.
  repeat split; try (repeat constructor; simpl; tauto).
  - intros i [<- | []]. lia.
  - apply incl_refl.
Qed.

(** X1 on the login of alice. *)
Lemma login_with_matching_password_witness :
  exists w',
    login (credentials "alice" "pw1") world0 =
    (Return (token_issued 200 token1 None), w') /\
    db w' = db world0.
Proof.
  apply (login_with_matching_password (credentials "alice" "pw1") world0
           alice "pw1" "s3cret"); try reflexivity.
  - repeat constructor. simpl. tauto.
  - left. reflexivity.
Defined.

(** X4 on a login whose password is the number 5: as bob, as alice, and
    under a name that holds U+0000. *)
Lemma login_without_string_password_witness :
  fst (login (mk_request [] [("username", JStr "bob"); ("password", JNum 5)]
                 None) world0) = Return incorrect_credentials /\
  fst (login (mk_request [] [("username", JStr "alice"); ("password", JNum 5)]
                 None) world0) =
  Return (mk_response 500 [("error", JStr "Server error")] []) /\
  fst (login (mk_request []
                [("username", JStr (String zero "bob")); ("password", JNum 5)]
                None) world0) =
  Return (mk_response 500 [("error", JStr "Server error")] []).
Proof.
  split; [| split].
  - destruct (login_without_string_password
                (mk_request [] [("username", JStr "bob"); ("password", JNum 5)]
                   None) world0) as [H _];
      [reflexivity | intros p; discriminate |].
    apply H; [| reflexivity]. intros u [<- | []]. discriminate.
  - destruct (login_without_string_password
                (mk_request []
                   [("username", JStr "alice"); ("password", JNum 5)]
                   None) world0) as [_ [H _]];
      [reflexivity | intros p; discriminate |].
    apply H. exists alice. split; [left |]; reflexivity.
  - destruct (login_without_string_password
                (mk_request []
                   [("username", JStr (String zero "bob"));
                    ("password", JNum 5)]
                   None) world0) as [_ [_ H]];
      [reflexivity | intros p; discriminate |].
    apply H. reflexivity.
Defined.




(** X8 on the registration of bob and on the deletion of alice. *)
Lemma routes_keep_tables_consistent_witness :
  consistent
    (db (snd (public route_register (credentials "bob" "pw") world0))) /\
  consistent
    (db (snd (protected route_delete (with_cookie (JStr token1) []) world0))).
Proof.
  split.
  - destruct (routes_keep_tables_consistent (credentials "bob" "pw") world0
                world0_is_consistent) as [H _].
    exact (H route_register).
  - destruct (routes_keep_tables_consistent (with_cookie (JStr token1) [])
                world0 world0_is_consistent) as [_ H].
    exact (H route_delete).
Defined.

(** X9 on the deletion of alice among two accounts. *)
Lemma other_routes_keep_profiles_witness :
  every_user_has_profile
    (db (snd (protected route_delete (with_cookie (JStr token1) [])
                (process two_accounts)))) = true.
Proof.
  destruct (other_routes_keep_profiles (with_cookie (JStr token1) [])
              (process two_accounts) eq_refl) as [_ [_ H]].
  exact (H route_delete).
Defined.

(** X10 on the view of alice, and on the view of an id without rows. *)
Lemma view_shows_own_row_only_witness :
  (exists decoded u p,
     verify_at (JStr token1) (JWT_SECRET world0) (now world0) = inr decoded /\
     In u (users store) /\ In p (user_profiles store) /\
     id u = claim_id decoded /\ user_id p = claim_id decoded /\
     json (profile_found (mk_view "alice" (Some "Alice") (Some "hello"))) =
     [("success", JBool true);
      ("data", row_object (mk_view (username u) (display_name p) (bio p)))]) /\
  fst (GET_profile_view (with_cookie (JStr token1) []) (process empty_store)) =
  Return profile_not_found.
Proof.
  split.
  - destruct (view_shows_own_row_only (with_cookie (JStr token1) []) world0)
      as [_ [H _]].
    apply (H (profile_found (mk_view "alice" (Some "Alice") (Some "hello")))
             (snd (GET_profile_view (with_cookie (JStr token1) []) world0))).
    + vm_compute. reflexivity.
    + reflexivity.
  - destruct (view_shows_own_row_only (with_cookie (JStr token1) [])
                (process empty_store)) as [_ [_ H]].
    apply (H (mk_payload 1 5 (Some 1805))).
    + vm_compute. reflexivity.
    + reflexivity.
    + intros u p [].
Defined.

(** X11 on the deletion of alice among two accounts. *)
Lemma delete_removes_user_and_profile_witness :
  exists w',
    DELETE_profile_delete (with_cookie (JStr token1) []) (process two_accounts) =
    (Return (mk_response 200
               [("success", JBool true); ("message", JStr "User deleted.");
                ("redirect", JStr "/")] []), w') /\
    (forall v, In v (users (db w')) <-> In v (users two_accounts) /\ id v <> 1) /\
    (forall p, In p (user_profiles (db w')) <->
               In p (user_profiles two_accounts) /\ user_id p <> 1).
Proof.
  apply (delete_removes_user_and_profile (with_cookie (JStr token1) [])
           (process two_accounts) (mk_payload 1 5 (Some 1805)) alice).
  - vm_compute. reflexivity.
  - reflexivity.
  - left. reflexivity.
  - reflexivity.
Defined.


(** X13 on an update of alice with the number 10^21 as displayName and a bio:
    the display_name holds the text the driver sends for the number. *)
Lemma update_writes_truthy_fields_witness :
  fst (PUT_profile_update
         (with_cookie (JStr token1)
            [("displayName", JNum 1000000000000000000000);
             ("bio", JStr "hi")]) world0) = Return profile_updated /\
  Forall2 (fun p p' =>
             user_id p = 1 ->
             display_name p' = Some "1e+21" /\ bio p' = Some "hi")
          (user_profiles store)
          (user_profiles
             (db (snd (PUT_profile_update
                         (with_cookie (JStr token1)
                            [("displayName", JNum 1000000000000000000000);
                             ("bio", JStr "hi")])
                         world0)))).
Proof.
  apply (update_writes_truthy_fields
           (with_cookie (JStr token1)
              [("displayName", JNum 1000000000000000000000);
               ("bio", JStr "hi")]) world0
           (mk_payload 1 5 (Some 1805))).
  - vm_compute. reflexivity.
  - reflexivity.
  - discriminate.
  - vm_compute. reflexivity.
  - eexists. split; [left |]; reflexivity.
Defined.


(** X16 on an update of the bio of alice sent at second 5 and again at
    second 6. *)
Lemma update_twice_witness :
  fst (PUT_profile_update (with_cookie (JStr token1) [("bio", JStr "hi")])
         (at_time
            (snd (PUT_profile_update
                    (with_cookie (JStr token1) [("bio", JStr "hi")]) world0))
            6)) =
  fst (PUT_profile_update (with_cookie (JStr token1) [("bio", JStr "hi")])
         world0) /\
  db (snd (PUT_profile_update (with_cookie (JStr token1) [("bio", JStr "hi")])
             (at_time
                (snd (PUT_profile_update
                        (with_cookie (JStr token1) [("bio", JStr "hi")])
                        world0))
                6))) =
  db (snd (PUT_profile_update (with_cookie (JStr token1) [("bio", JStr "hi")])
             world0)).
Proof.
  apply (update_twice (with_cookie (JStr token1) [("bio", JStr "hi")]) world0
           6).
  - reflexivity.
  - vm_compute. reflexivity.
Defined.

(** X17 on GET /profile/view without cookie and on DELETE /profile/delete
    with a cookie that is no token. *)
Lemma protected_routes_share_the_gate_witness :
  protected route_view (mk_request [] [] None) world0 =
  (Return no_token_provided, world0) /\
  protected route_delete (with_cookie (JStr "x") []) world0 =
  (Return invalid_token, logged world0 jwt_verify_called).
Proof.
  split.
  - apply (protected_routes_share_the_gate route_view (mk_request [] [] None)
             world0). reflexivity.
  - destruct (protected_routes_share_the_gate route_delete
                (with_cookie (JStr "x") []) world0) as [_ H].
    apply (H eq_refl (JsonWebTokenError "jwt malformed")). reflexivity.
Defined.


(** X19 on the cookie of the login of alice at second 5: good at second
    1804, also after a logout, refused at second 1805. *)
Lemma login_cookie_lifetime_witness :
  fst (GET_auth_validate (with_cookie (JStr token1) [])
         (at_time (snd (logout (with_cookie (JStr token1) [])
                          (snd (login (credentials "alice" "pw1") world0))))
                  1804)) =
  Return (mk_response 200 [("tokenIsValid", JBool true)] []) /\
  fst (GET_auth_validate (with_cookie (JStr token1) [])
         (at_time (snd (logout (with_cookie (JStr token1) [])
                          (snd (login (credentials "alice" "pw1") world0))))
                  1805)) =
  Return invalid_token.
Proof.
  assert (E : login (credentials "alice" "pw1") world0 =
              (Return (token_issued 200 token1 None),
               snd (login (credentials "alice" "pw1") world0)))
    by (vm_compute; reflexivity).
  split.
  - apply (login_cookie_lifetime (L := libraries)
             demo_decode_encode demo_decode_empty
             (credentials "alice" "pw1") (with_cookie (JStr token1) [])
             (with_cookie (JStr token1) []) world0 _ _ token1
             (issuance_options None) 1804 E (or_introl eq_refl) eq_refl).
    reflexivity.
  - apply (login_cookie_lifetime (L := libraries)
             demo_decode_encode demo_decode_empty
             (credentials "alice" "pw1") (with_cookie (JStr token1) [])
             (with_cookie (JStr token1) []) world0 _ _ token1
             (issuance_options None) 1805 E (or_introl eq_refl) eq_refl).
    vm_compute. discriminate.
Defined.


(** X21 on an update of alice whose bio holds U+0000, next to a displayName
    that the column would take, and on one whose bio has 256 digits. *)
Lemma update_refuses_text_witness :
  (fst (PUT_profile_update
          (with_cookie (JStr token1)
             [("displayName", JStr "Al"); ("bio", JStr (String zero "b"))])
          world0) = Return error_has_occurred /\
   db (snd (PUT_profile_update
              (with_cookie (JStr token1)
                 [("displayName", JStr "Al"); ("bio", JStr (String zero "b"))])
              world0)) = db world0) /\
  (fst (PUT_profile_update
          (with_cookie (JStr token1) [("bio", JStr (ones 256))]) world0)
   = Return error_has_occurred /\
   db (snd (PUT_profile_update
              (with_cookie (JStr token1) [("bio", JStr (ones 256))]) world0))
   = db world0).
Proof.
  split.
  - apply (update_refuses_text
             (with_cookie (JStr token1)
                [("displayName", JStr "Al"); ("bio", JStr (String zero "b"))])
             world0 (mk_payload 1 5 (Some 1805))).
    + vm_compute. reflexivity.
    + left. exists col_bio, (String zero "b").
      split; [right; left |]; reflexivity.
  - apply (update_refuses_text
             (with_cookie (JStr token1) [("bio", JStr (ones 256))])
             world0 (mk_payload 1 5 (Some 1805))).
    + vm_compute. reflexivity.
    + right. split; [vm_compute; reflexivity |].
      exists alice_profile. split; [left |]; reflexivity.
Defined.

End MoreInstances.
